(** * hlf-sdk-go, package client: the Core (client/core.go)

    A shallow embedding of [NewCore] (the construction cascade) and of
    [core.Channel] (lazy, cached channel resolution), followed by the
    properties of the specification that concern them.

    Conventions of the embedding:
    - a Go value that may be [nil] (pointer, interface) is an [option];
      calling a method through [nil] panics;
    - a Go call returning [(T, error)] is a [result T]: either the value
      or the error, the other one being [nil];
    - the receiver [*core] is passed and returned explicitly;
    - everything the code does to the outside (log records, discovery
      lookups, connection builds, pool registrations) is appended to the
      [trace] of a [World], in program order;
    - types and functions of other packages are the fields of the classes
      [Handles] and [Collaborators]. *)

From Stdlib Require Import ZArith.
From stdpp Require Import base strings list gmap.

Local Open Scope string_scope.
Local Open Scope list_scope.

(** ** Errors (github.com/pkg/errors, fmt) *)

Inductive error :=
| fundamental (msg : string)
| withMessage (cause : error) (msg : string).

(** [err.Error()] *)
Fixpoint Error (e : error) : string :=
  match e with
  | fundamental msg => msg
  | withMessage cause msg => msg +:+ ": " +:+ Error cause
  end.

Definition errors_New (msg : string) : option error := Some (fundamental msg).

(** [errors.Wrap(err, message)]: "If err is nil, Wrap returns nil." *)
Definition errors_Wrap (err : option error) (message : string) : option error :=
  match err with
  | None => None
  | Some e => Some (withMessage e message)
  end.

Inductive result (A : Type) :=
| Ok (a : A)
| Err (e : error).
Arguments Ok {A} a.
Arguments Err {A} e.

(** ** Logging (go.uber.org/zap) *)

Inductive Field :=
| zap_String (key val : string)
| zap_Error (err : error).

Record Logger := { lg_name : string; lg_fields : list Field }.

Definition Logger_Named (l : Logger) (s : string) : Logger :=
  if decide (s = "") then l
  else {| lg_name := if decide (lg_name l = "") then s else lg_name l +:+ "." +:+ s;
          lg_fields := lg_fields l |}.

Definition Logger_With (l : Logger) (fields : list Field) : Logger :=
  {| lg_name := lg_name l; lg_fields := lg_fields l ++ fields |}.

Inductive Level := DebugLevel | InfoLevel | ErrorLevel.

Record Entry := {
  entry_level : Level;
  entry_logger : string;
  entry_msg : string;
  entry_fields : list Field
}.

(** ** Opaque types of the collaborating packages *)

Class Handles := {
  Ctx : Type;               (* context.Context *)
  TlsConfig : Type;         (* config.TlsConfig *)
  CryptoSuiteOpts : Type;   (* config.CryptoSuiteOpts *)
  DiscoveryOptions : Type;  (* config.DiscoveryConfigOpts *)
  TlsCertsMap : Type;       (* type of config.Config.TLSCertsMap *)
  TLSCertsMapper : Type;    (* result of discovery.NewTLSCertsMapper *)
  CryptoSuite : Type;       (* api.CryptoSuite *)
  Identity : Type;          (* api.Identity *)
  SigningIdentity : Type;   (* msp.SigningIdentity *)
  Peer : Type;              (* api.Peer *)
  PeerPool : Type;          (* api.PeerPool *)
  ClientConn : Type;        (* grpc.ClientConn *)
  Orderer : Type;           (* api.Orderer *)
  DiscoveryProvider : Type; (* api.DiscoveryProvider *)
  CCFetcher : Type;         (* api.CCFetcher *)
  ChaincodePackage : Type;  (* api.ChaincodePackage *)
  Strategy : Type           (* result of api.StrategyGRPC *)
}.

Section Model.
Context {H : Handles}.

(** ** Data model (api, api/config) *)

Record ConnectionConfig := { Host : string; Tls : TlsConfig }.

Record HostAddress := { Address : string; TLSSettings : TlsConfig }.

Record HostEndpoint := { MspID : string; HostAddresses : list HostAddress }.

(** api.ChannelDiscoverer, by what its methods answer *)
Record ChannelDiscoverer := {
  Orderers : list HostEndpoint;
  ChannelName : string
}.

(** the discoverer returned by [LocalPeers] *)
Record LocalPeersDiscoverer := { Peers : list HostEndpoint }.

Record CryptoConfig := { Crypto_Type : string; Crypto_Options : CryptoSuiteOpts }.

Record MSPConfig := { MSP_Name : string; MSP_Endorsers : list ConnectionConfig }.

Record DiscoveryConfig := {
  Discovery_Type : string;
  Discovery_Connection : option ConnectionConfig;
  Discovery_Options : DiscoveryOptions
}.

Record Config := {
  Config_Crypto : CryptoConfig;
  Config_Orderers : list ConnectionConfig;
  Config_MSP : list MSPConfig;
  Config_Discovery : DiscoveryConfig;
  Config_TLSCertsMap : TlsCertsMap
}.

(** Modelled from the spec: the Channel value of package client/channel
    ([channel.NewCore] is not part of the excerpt). "Construct the Channel
    value from organization id, name, peer pool, bound orderer, discovery
    provider, identity, protocol-version flag"; the constructor returns a
    pointer, so every value carries the reference [ch_ref] of its
    allocation. *)
Record api_Channel := {
  ch_ref : nat;
  ch_mspId : string;
  ch_name : string;
  ch_peerPool : option PeerPool;
  ch_orderer : option Orderer;
  ch_discoveryProvider : option DiscoveryProvider;
  ch_identity : option SigningIdentity;
  ch_fabricV2 : bool;
  ch_logger : option Logger
}.

Record core := {
  ctx : option Ctx;
  logger : option Logger;
  config : option Config;
  mspId : string;
  identity : option SigningIdentity;
  peerPool : option PeerPool;
  orderer : option Orderer;
  discoveryProvider : option DiscoveryProvider;
  channels : gmap string api_Channel;
  chaincodes : gmap string ChaincodePackage;
  cs : option CryptoSuite;
  fetcher : option CCFetcher;
  fabricV2 : bool
}.

(** type CoreOpt func(c *core) error *)
Definition CoreOpt : Type := core -> core * option error.

(** ** Functions and constants of the collaborating packages *)

Class Collaborators := {
  api_ErrEmptyConfig : error;
  context_Background : Ctx;
  logger_DefaultLogger : Logger;
  ecdsa_DefaultConfig : CryptoConfig;
  crypto_GetSuite : string -> CryptoSuiteOpts -> result CryptoSuite;
  Identity_GetSigningIdentity : Identity -> option CryptoSuite -> SigningIdentity;
  SigningIdentity_Serialize : SigningIdentity -> result (list Byte.byte);
  SigningIdentity_Sign : SigningIdentity -> list Byte.byte -> result (list Byte.byte);
  pool_New : option Ctx -> option Logger -> PeerPool;
  peer_New : ConnectionConfig -> option Logger -> result Peer;
  api_StrategyGRPC : Z -> Strategy;
  PeerPool_Add : PeerPool -> string -> Peer -> Strategy -> option error;
  discovery_LocalConfigServiceDiscoveryType : string;
  discovery_GossipServiceDiscoveryType : string;
  discovery_NewTLSCertsMapper : TlsCertsMap -> TLSCertsMapper;
  TLSCertsMapper_TlsConfigForAddress : TLSCertsMapper -> string -> option TlsConfig;
  discovery_NewLocalConfigProvider :
    DiscoveryOptions -> TLSCertsMapper -> result DiscoveryProvider;
  discovery_NewGossipDiscoveryProvider :
    option Ctx -> ConnectionConfig -> option Logger ->
    (list Byte.byte -> result (list Byte.byte)) -> list Byte.byte -> TLSCertsMapper ->
    result DiscoveryProvider;
  DiscoveryProvider_LocalPeers :
    DiscoveryProvider -> option Ctx -> result LocalPeersDiscoverer;
  DiscoveryProvider_Channel :
    DiscoveryProvider -> option Ctx -> string -> result ChannelDiscoverer;
  util_NewGRPCConnectionFromConfigs :
    option Ctx -> option Logger -> list ConnectionConfig -> result ClientConn;
  orderer_NewFromGRPC : option Ctx -> option ClientConn -> result Orderer;
  fetcher_NewLocal : CCFetcher
}.

Context {E : Collaborators}.

(** ** The world outside the Core *)

Inductive Event :=
| EvLog (e : Entry)
| EvDiscoveryChannel (name : string)
| EvGRPCConnect (cfgs : list ConnectionConfig)
| EvNewOrderer (conn : option ClientConn)
| EvPoolAdd (msp : string) (p : Peer).

Record World := { trace : list Event; next_ref : nat }.

Definition record (e : Event) (w : World) : World :=
  {| trace := trace w ++ [e]; next_ref := next_ref w |}.

(** ** Control flow: fall through, [return], panic *)

Inductive flow (R A : Type) :=
| Continue (a : A) (w : World)
| Exit (r : R) (w : World)
| Panic (w : World).
Arguments Continue {R A} a w.
Arguments Exit {R A} r w.
Arguments Panic {R A} w.

Definition M (R A : Type) : Type := World -> flow R A.

Definition ret {R A} (a : A) : M R A := fun w => Continue a w.

Definition bind {R A B} (m : M R A) (k : A -> M R B) : M R B :=
  fun w =>
    match m w with
    | Continue a w' => k a w'
    | Exit r w' => Exit r w'
    | Panic w' => Panic w'
    end.

Definition exit {R A} (r : R) : M R A := fun w => Exit r w.

Definition panic {R A} : M R A := fun w => Panic w.

Definition emit {R} (e : Event) : M R unit := fun w => Continue tt (record e w).

(** use of a pointer or interface value: nil panics *)
Definition deref {R A} (p : option A) : M R A :=
  match p with
  | Some a => ret a
  | None => panic
  end.

(** allocation of a new object *)
Definition alloc {R} : M R nat :=
  fun w => Continue (next_ref w) {| trace := trace w; next_ref := S (next_ref w) |}.

Inductive outcome (R : Type) :=
| Returned (r : R) (w : World)
| Panicked (w : World).
Arguments Returned {R} r w.
Arguments Panicked {R} w.

Definition run {R} (m : M R R) (w : World) : outcome R :=
  match m w with
  | Continue r w' => Returned r w'
  | Exit r w' => Returned r w'
  | Panic w' => Panicked w'
  end.

(** the value a call returned, if it returned *)
Definition returned {R} (o : outcome R) : option R :=
  match o with
  | Returned r _ => Some r
  | Panicked _ => None
  end.

End Model.

Arguments Continue {H R A} a w.
Arguments Exit {H R A} r w.
Arguments Panic {H R A} w.
Arguments Returned {H R} r w.
Arguments Panicked {H R} w.

Notation "'let*' x ':=' m 'in' k" := (bind m (fun x => k))
  (at level 10, x pattern, m at level 100, k at level 200).

Section Code.
Context {H : Handles} {E : Collaborators}.

(** field assignments [c.f = v] *)

Definition set_ctx (c : core) (v : option Ctx) : core :=
  {| ctx := v; logger := logger c; config := config c; mspId := mspId c;
     identity := identity c; peerPool := peerPool c; orderer := orderer c;
     discoveryProvider := discoveryProvider c; channels := channels c;
     chaincodes := chaincodes c; cs := cs c; fetcher := fetcher c;
     fabricV2 := fabricV2 c |}.

Definition set_logger (c : core) (v : option Logger) : core :=
  {| ctx := ctx c; logger := v; config := config c; mspId := mspId c;
     identity := identity c; peerPool := peerPool c; orderer := orderer c;
     discoveryProvider := discoveryProvider c; channels := channels c;
     chaincodes := chaincodes c; cs := cs c; fetcher := fetcher c;
     fabricV2 := fabricV2 c |}.

Definition set_config (c : core) (v : option Config) : core :=
  {| ctx := ctx c; logger := logger c; config := v; mspId := mspId c;
     identity := identity c; peerPool := peerPool c; orderer := orderer c;
     discoveryProvider := discoveryProvider c; channels := channels c;
     chaincodes := chaincodes c; cs := cs c; fetcher := fetcher c;
     fabricV2 := fabricV2 c |}.

Definition set_identity (c : core) (v : option SigningIdentity) : core :=
  {| ctx := ctx c; logger := logger c; config := config c; mspId := mspId c;
     identity := v; peerPool := peerPool c; orderer := orderer c;
     discoveryProvider := discoveryProvider c; channels := channels c;
     chaincodes := chaincodes c; cs := cs c; fetcher := fetcher c;
     fabricV2 := fabricV2 c |}.

Definition set_peerPool (c : core) (v : option PeerPool) : core :=
  {| ctx := ctx c; logger := logger c; config := config c; mspId := mspId c;
     identity := identity c; peerPool := v; orderer := orderer c;
     discoveryProvider := discoveryProvider c; channels := channels c;
     chaincodes := chaincodes c; cs := cs c; fetcher := fetcher c;
     fabricV2 := fabricV2 c |}.

Definition set_orderer (c : core) (v : option Orderer) : core :=
  {| ctx := ctx c; logger := logger c; config := config c; mspId := mspId c;
     identity := identity c; peerPool := peerPool c; orderer := v;
     discoveryProvider := discoveryProvider c; channels := channels c;
     chaincodes := chaincodes c; cs := cs c; fetcher := fetcher c;
     fabricV2 := fabricV2 c |}.

Definition set_discoveryProvider (c : core) (v : option DiscoveryProvider) : core :=
  {| ctx := ctx c; logger := logger c; config := config c; mspId := mspId c;
     identity := identity c; peerPool := peerPool c; orderer := orderer c;
     discoveryProvider := v; channels := channels c;
     chaincodes := chaincodes c; cs := cs c; fetcher := fetcher c;
     fabricV2 := fabricV2 c |}.

Definition set_channels (c : core) (v : gmap string api_Channel) : core :=
  {| ctx := ctx c; logger := logger c; config := config c; mspId := mspId c;
     identity := identity c; peerPool := peerPool c; orderer := orderer c;
     discoveryProvider := discoveryProvider c; channels := v;
     chaincodes := chaincodes c; cs := cs c; fetcher := fetcher c;
     fabricV2 := fabricV2 c |}.

Definition set_cs (c : core) (v : option CryptoSuite) : core :=
  {| ctx := ctx c; logger := logger c; config := config c; mspId := mspId c;
     identity := identity c; peerPool := peerPool c; orderer := orderer c;
     discoveryProvider := discoveryProvider c; channels := channels c;
     chaincodes := chaincodes c; cs := v; fetcher := fetcher c;
     fabricV2 := fabricV2 c |}.

Definition set_fetcher (c : core) (v : option CCFetcher) : core :=
  {| ctx := ctx c; logger := logger c; config := config c; mspId := mspId c;
     identity := identity c; peerPool := peerPool c; orderer := orderer c;
     discoveryProvider := discoveryProvider c; channels := channels c;
     chaincodes := chaincodes c; cs := cs c; fetcher := v;
     fabricV2 := fabricV2 c |}.

(** [cfg.Crypto = v] *)
Definition set_Crypto (cfg : Config) (v : CryptoConfig) : Config :=
  {| Config_Crypto := v; Config_Orderers := Config_Orderers cfg;
     Config_MSP := Config_MSP cfg; Config_Discovery := Config_Discovery cfg;
     Config_TLSCertsMap := Config_TLSCertsMap cfg |}.

(** [cfg.Discovery.Connection.Tls = v], for a connection [conn] that is there *)
Definition set_Discovery_Connection_Tls
    (cfg : Config) (conn : ConnectionConfig) (v : TlsConfig) : Config :=
  {| Config_Crypto := Config_Crypto cfg; Config_Orderers := Config_Orderers cfg;
     Config_MSP := Config_MSP cfg;
     Config_Discovery :=
       {| Discovery_Type := Discovery_Type (Config_Discovery cfg);
          Discovery_Connection := Some {| Host := Host conn; Tls := v |};
          Discovery_Options := Discovery_Options (Config_Discovery cfg) |};
     Config_TLSCertsMap := Config_TLSCertsMap cfg |}.

(** ** Logging and calls that leave a mark in the trace *)

(** the record a logger writes: its name and fields, then those of the call *)
Definition entry (lvl : Level) (l : Logger) (msg : string) (fields : list Field) : Entry :=
  {| entry_level := lvl; entry_logger := lg_name l; entry_msg := msg;
     entry_fields := lg_fields l ++ fields |}.

Definition write {R} (lvl : Level) (l : Logger) (msg : string) (fields : list Field)
  : M R unit :=
  emit (EvLog (entry lvl l msg fields)).

Definition Logger_Debug {R} := @write R DebugLevel.
Definition Logger_Info {R} := @write R InfoLevel.
Definition Logger_Error {R} := @write R ErrorLevel.

Definition call_Channel {R} (dp : DiscoveryProvider) (cx : option Ctx) (name : string)
  : M R (result ChannelDiscoverer) :=
  let* _ := emit (EvDiscoveryChannel name) in
  ret (DiscoveryProvider_Channel dp cx name).

Definition call_NewGRPCConnectionFromConfigs {R}
    (cx : option Ctx) (lg : option Logger) (cfgs : list ConnectionConfig)
  : M R (result ClientConn) :=
  let* _ := emit (EvGRPCConnect cfgs) in
  ret (util_NewGRPCConnectionFromConfigs cx lg cfgs).

Definition call_NewFromGRPC {R} (cx : option Ctx) (conn : option ClientConn)
  : M R (result Orderer) :=
  let* _ := emit (EvNewOrderer conn) in
  ret (orderer_NewFromGRPC cx conn).

(** [for _, x := range l { body }] *)
Fixpoint for_each {R A} (l : list A) (body : A -> M R unit) : M R unit :=
  match l with
  | [] => ret tt
  | x :: l' => let* _ := body x in for_each l' body
  end.

(** ** core.Channel (lines 85-138) *)

(** lines 111-115: one address becomes one connection descriptor *)
Definition grpcCfg (hostAddr : HostAddress) : ConnectionConfig :=
  {| Host := Address hostAddr; Tls := TLSSettings hostAddr |}.

(** lines 109-117: the body of the loop over the orderers *)
Definition append_orderer (grpcConnCfgs : list ConnectionConfig) (ord : HostEndpoint)
  : list ConnectionConfig :=
  if (0 <? length (HostAddresses ord))%nat then
    fold_left (fun cfgs hostAddr => cfgs ++ [grpcCfg hostAddr])
              (HostAddresses ord) grpcConnCfgs
  else grpcConnCfgs.

(** lines 105-118 *)
Definition grpcConnCfgs_of (orderers : list HostEndpoint) : list ConnectionConfig :=
  fold_left append_orderer orderers [].

(** lines 103-127: a discovery answer with orderers; the value is [ord] *)
Definition custom_orderer {R} (c : core) (log : Logger) (name : string)
    (discChannel : ChannelDiscoverer) : M R (option Orderer) :=
  if (0 <? length (Orderers discChannel))%nat then
    let grpcConnCfgs := grpcConnCfgs_of (Orderers discChannel) in
    let* r := call_NewGRPCConnectionFromConfigs (ctx c) (logger c) grpcConnCfgs in
    let* ordConn :=
      match r with
      | Err err =>
          let* _ := Logger_Error log
                      "Failed to initialize custom GRPC connection for orderer"
                      [zap_String "channel" name; zap_Error err] in
          ret None
      | Ok conn => ret (Some conn)
      end in
    let* r := call_NewFromGRPC (ctx c) ordConn in
    match r with
    | Err _ =>
        let* _ := Logger_Error log "Failed to construct orderer from GRPC connection" [] in
        ret None
    | Ok o => ret (Some o)
    end
  else ret None.

(** line 86 *)
Definition channel_log (lg : Logger) (name : string) : Logger :=
  Logger_With (Logger_Named lg "Channel") [zap_String "channel" name].

(** line 135, see [api_Channel] *)
Definition channel_NewCore {R} (mspId name : string) (pool : option PeerPool)
    (ord : option Orderer) (dp : option DiscoveryProvider)
    (id : option SigningIdentity) (v2 : bool) (lg : option Logger) : M R api_Channel :=
  let* r := alloc in
  ret {| ch_ref := r; ch_mspId := mspId; ch_name := name; ch_peerPool := pool;
         ch_orderer := ord; ch_discoveryProvider := dp; ch_identity := id;
         ch_fabricV2 := v2; ch_logger := lg |}.

(** The mutex [channelMx] is held from entry to return: calls on one Core
    run one after the other, each from the state the previous one left. *)
Definition Channel (c : core) (name : string) : World -> outcome (api_Channel * core) :=
  run (
    let* lg := deref (logger c) in
    let log := channel_log lg name in
    match channels c !! name with
    | Some ch => exit (ch, c)
    | None =>
        let* _ := Logger_Debug log "Channel instance doesn't exist, initiating new" [] in
        let* dp := deref (discoveryProvider c) in
        let* r := call_Channel dp (ctx c) name in
        let* ord :=
          match r with
          | Err err =>
              let* _ := Logger_Error log
                          "Failed channel discovery. We'll use default orderer"
                          [zap_Error err] in
              ret None
          | Ok discChannel => custom_orderer c log name discChannel
          end in
        let ord := match ord with None => orderer c | Some _ => ord end in
        let* ch := channel_NewCore (mspId c) name (peerPool c) ord
                     (discoveryProvider c) (identity c) (fabricV2 c) (logger c) in
        ret (ch, set_channels c (<[name := ch]> (channels c)))
    end).

(** ** NewCore (lines 144-297) *)

(** what [NewCore] returns: [(api.Core, error)] *)
Definition NewCoreResult : Type := option core * option error.

(** time.Second, in nanoseconds *)
Definition time_Second : Z := 1000000000.

(** lines 146-150 *)
Definition new_core (mspId : string) : core :=
  {| ctx := None; logger := None; config := None; mspId := mspId;
     identity := None; peerPool := None; orderer := None;
     discoveryProvider := None; channels := ∅; chaincodes := ∅;
     cs := None; fetcher := None; fabricV2 := false |}.

(** lines 152-156; [err] is the variable declared at line 145 *)
Fixpoint apply_options (opts : list CoreOpt) (c : core) (err : option error)
  : M NewCoreResult (core * option error) :=
  match opts with
  | [] => ret (c, err)
  | option :: opts' =>
      let '(c, err) := option c in
      match err with
      | Some _ => exit (None, errors_Wrap err "failed to apply option")
      | None => apply_options opts' c err
      end
  end.

(** lines 158-160 *)
Definition default_ctx (c : core) : core :=
  match ctx c with
  | None => set_ctx c (Some context_Background)
  | Some _ => c
  end.

(** lines 162-164 *)
Definition default_logger (c : core) : core :=
  match logger c with
  | None => set_logger c (Some logger_DefaultLogger)
  | Some _ => c
  end.

(** lines 166-178 *)
Definition init_cs (c : core) (err : option error)
  : M NewCoreResult (core * option error) :=
  match cs c with
  | Some _ => ret (c, err)
  | None =>
      let* lg := deref (logger c) in
      let* _ := Logger_Info lg "initializing crypto suite" [] in
      match config c with
      | None => exit (None, Some api_ErrEmptyConfig)
      | Some cfg =>
          let cfg :=
            if decide (Crypto_Type (Config_Crypto cfg) = "")
            then set_Crypto cfg ecdsa_DefaultConfig else cfg in
          let c := set_config c (Some cfg) in
          match crypto_GetSuite (Crypto_Type (Config_Crypto cfg))
                                (Crypto_Options (Config_Crypto cfg)) with
          | Err e =>
              exit (None, errors_Wrap (Some e) "failed to initialize crypto suite")
          | Ok suite => ret (set_cs c (Some suite), None)
          end
      end
  end.

(** lines 180-184 *)
Definition init_identity (c : core) (identity : option Identity)
  : M NewCoreResult core :=
  match identity with
  | None => exit (None, errors_New "identity wasn't provided")
  | Some identity =>
      ret (set_identity c (Some (Identity_GetSigningIdentity identity (cs c))))
  end.

(** lines 196-202 and again 259-265: build a peer and add it to the pool of
    the core; [err] here is the one those lines declare *)
Definition add_peer (c : core) (msp : string) (peerCfg : ConnectionConfig)
  : M NewCoreResult unit :=
  match peer_New peerCfg (logger c) with
  | Err err =>
      exit (None,
            errors_New ("failed to initialize endorsers for MSP: " +:+ msp +:+ ":"
                        +:+ Error err))
  | Ok p =>
      let* pool := deref (peerPool c) in
      let* _ := emit (EvPoolAdd msp p) in
      match PeerPool_Add pool msp p (api_StrategyGRPC (5 * time_Second)) with
      | Some err => exit (None, errors_Wrap (Some err) "failed to add peer to pool")
      | None => ret tt
      end
  end.

(** lines 186-205 *)
Definition init_peerPool (c : core) : M NewCoreResult core :=
  match peerPool c with
  | Some _ => ret c
  | None =>
      let* lg := deref (logger c) in
      let* _ := Logger_Info lg "initializing peer pool" [] in
      match config c with
      | None => exit (None, Some api_ErrEmptyConfig)
      | Some cfg =>
          let c := set_peerPool c (Some (pool_New (ctx c) (logger c))) in
          let* _ :=
            for_each (Config_MSP cfg) (fun mspConfig =>
              for_each (MSP_Endorsers mspConfig) (fun peerConfig =>
                add_peer c (MSP_Name mspConfig) peerConfig)) in
          ret c
      end
  end.

(** lines 269-273 *)
Definition unknown_discovery_type (t : string) : error :=
  fundamental ("unknown discovery type=" +:+ t +:+ ". available: "
               +:+ discovery_LocalConfigServiceDiscoveryType +:+ ", "
               +:+ discovery_GossipServiceDiscoveryType).

(** lines 218-267, the case of gossip discovery; [err] is the variable of
    line 145 until line 225 declares another one *)
Definition init_gossip (c : core) (err : option error) (cfg : Config)
    (tlsMapper : TLSCertsMapper) : M NewCoreResult (core * option error) :=
  match Discovery_Connection (Config_Discovery cfg) with
  | None =>
      exit (None,
            errors_Wrap err
              "discovery connection config wasn't provided. configure 'discovery.connection'")
  | Some connection =>
      let* signer := deref (identity c) in
      let identitySigner := fun msg => SigningIdentity_Sign signer msg in
      match SigningIdentity_Serialize signer with
      | Err e => exit (None, errors_Wrap (Some e) "failed serialize current identity")
      | Ok clientIdentity =>
          let* tls := deref (TLSCertsMapper_TlsConfigForAddress tlsMapper (Host connection)) in
          let cfg := set_Discovery_Connection_Tls cfg connection tls in
          let c := set_config c (Some cfg) in
          let connection := {| Host := Host connection; Tls := tls |} in
          match discovery_NewGossipDiscoveryProvider (ctx c) connection (logger c)
                  identitySigner clientIdentity tlsMapper with
          | Err e =>
              exit (None, errors_Wrap (Some e) "failed to initialize discovery provider")
          | Ok dp =>
              let c := set_discoveryProvider c (Some dp) in
              match DiscoveryProvider_LocalPeers dp (ctx c) with
              | Err e => exit (None, errors_Wrap (Some e) "failed to fetch local peers")
              | Ok lDiscoverer =>
                  let* _ :=
                    for_each (Peers lDiscoverer) (fun lp =>
                      let mspID := MspID lp in
                      for_each (HostAddresses lp) (fun lpAddresses =>
                        add_peer c mspID
                          {| Host := Address lpAddresses;
                             Tls := TLSSettings lpAddresses |})) in
                  ret (c, err)
              end
          end
      end
  end.

(** lines 207-275 *)
Definition init_discoveryProvider (c : core) (err : option error)
  : M NewCoreResult (core * option error) :=
  match discoveryProvider c, config c with
  | None, Some cfg =>
      let* lg := deref (logger c) in
      let* _ := Logger_Info lg "initializing discovery provider" [] in
      let tlsMapper := discovery_NewTLSCertsMapper (Config_TLSCertsMap cfg) in
      let t := Discovery_Type (Config_Discovery cfg) in
      if decide (t = discovery_LocalConfigServiceDiscoveryType) then
        match discovery_NewLocalConfigProvider
                (Discovery_Options (Config_Discovery cfg)) tlsMapper with
        | Err e =>
            exit (None, errors_Wrap (Some e) "failed to initialize discovery provider")
        | Ok dp => ret (set_discoveryProvider c (Some dp), None)
        end
      else if decide (t = discovery_GossipServiceDiscoveryType) then
        init_gossip c err cfg tlsMapper
      else exit (None, Some (unknown_discovery_type t))
  | _, _ => ret (c, err)
  end.

(** lines 277-289 *)
Definition init_orderer (c : core) : M NewCoreResult core :=
  match orderer c, config c with
  | None, Some cfg =>
      let* lg := deref (logger c) in
      let* _ := Logger_Info lg "initializing orderer" [] in
      if (0 <? length (Config_Orderers cfg))%nat then
        let* r := call_NewGRPCConnectionFromConfigs (ctx c) (logger c)
                    (Config_Orderers cfg) in
        match r with
        | Err e =>
            exit (None, errors_Wrap (Some e) "failed to initialize orderer connection")
        | Ok ordConn =>
            let* r := call_NewFromGRPC (ctx c) (Some ordConn) in
            match r with
            | Err e => exit (None, errors_Wrap (Some e) "failed to initialize orderer")
            | Ok o => ret (set_orderer c (Some o))
            end
        end
      else ret c
  | _, _ => ret c
  end.

(** lines 291-294 *)
Definition default_fetcher (c : core) : core :=
  match fetcher c with
  | None => set_fetcher c (Some fetcher_NewLocal)
  | Some _ => c
  end.

(** lines 145-205: everything before the discovery provider *)
Definition before_discovery (mspId : string) (identity : option Identity)
    (opts : list CoreOpt) : M NewCoreResult (core * option error) :=
  let err := None in
  let c := new_core mspId in
  let* (c, err) := apply_options opts c err in
  let c := default_ctx c in
  let c := default_logger c in
  let* (c, err) := init_cs c err in
  let* c := init_identity c identity in
  let* c := init_peerPool c in
  ret (c, err).

Definition NewCore (mspId : string) (identity : option Identity) (opts : list CoreOpt)
  : World -> outcome NewCoreResult :=
  run (
    let* (c, err) := before_discovery mspId identity opts in
    let* (c, err) := init_discoveryProvider c err in
    let* c := init_orderer c in
    let c := default_fetcher c in
    ret (Some c, None)).

(** ** A Core in use: calls of [Channel] one after the other *)

(** One call of the application; a caller that recovers from a panic goes
    on with the Core as the panic left it. *)
Definition call (c : core) (name : string) (w : World) : core * World :=
  match Channel c name w with
  | Returned (_, c') w' => (c', w')
  | Panicked w' => (c, w')
  end.

Fixpoint calls (names : list string) (c : core) (w : World) : core * World :=
  match names with
  | [] => (c, w)
  | name :: names' => let '(c1, w1) := call c name w in calls names' c1 w1
  end.

Definition is_query (name : string) (e : Event) : bool :=
  match e with
  | EvDiscoveryChannel n => bool_decide (n = name)
  | _ => false
  end.


(** the orderer the Channel value of a call is bound to *)
Definition bound_orderer (o : outcome (api_Channel * core)) : option (option Orderer) :=
  match o with
  | Returned (ch, _) _ => Some (ch_orderer ch)
  | Panicked _ => None
  end.


(** the descriptors of all addresses of all endpoints, in order *)
Definition flattened (endpoints : list HostEndpoint) : list ConnectionConfig :=
  concat (map (fun ep => map grpcCfg (HostAddresses ep)) endpoints).

(** What a part of [NewCore] guarantees: [Q] of what it hands on when it
    falls through, and no Core when it returns. *)
Definition stage_post {A} (Q : A -> Prop) (m : M NewCoreResult A) : Prop :=
  forall w,
    match m w with
    | Continue a _ => Q a
    | Exit r _ => r.1 = None
    | Panic _ => True
    end.

(** the Core carries the built-in crypto configuration and the suite
    looked up for it *)
Definition uses_default_crypto (c : core) : Prop :=
  exists (cfg : Config) (suite : CryptoSuite),
    config c = Some cfg /\
    Config_Crypto cfg = ecdsa_DefaultConfig /\
    crypto_GetSuite (Crypto_Type ecdsa_DefaultConfig)
                    (Crypto_Options ecdsa_DefaultConfig) = Ok suite /\
    cs c = Some suite.

(** The options of a list have been applied strictly in the given order,
    none of them failing: [options_applied_in_order opts c c'] says that
    this leads from [c] to [c'] (section 4.1 of the specification). *)
Inductive options_applied_in_order : list CoreOpt -> core -> core -> Prop :=
| applied_none (c : core) : options_applied_in_order [] c c
| applied_next (opts : list CoreOpt) (next : CoreOpt) (c c1 c2 : core) :
    options_applied_in_order opts c c1 ->
    next c1 = (c2, None) ->
    options_applied_in_order (opts ++ [next]) c c2.

End Code.

(** ** core.Chaincode (lines 55-67) and the accessors (lines 73-83, 140-142) *)

Section Chaincodes.
Context {H : Handles}.

(** packages client/chaincode and client/chaincode/system *)
Class ChaincodeCollaborators := {
  LSCC : Type;              (* result of system.NewLSCC *)
  system_NewLSCC : option PeerPool -> option SigningIdentity -> LSCC;
  chaincode_NewCorePackage :
    string -> LSCC -> option CCFetcher -> option Orderer -> option SigningIdentity ->
    ChaincodePackage
}.

Context {E : Collaborators} {P : ChaincodeCollaborators}.

Definition set_chaincodes (c : core) (v : gmap string ChaincodePackage) : core :=
  {| ctx := ctx c; logger := logger c; config := config c; mspId := mspId c;
     identity := identity c; peerPool := peerPool c; orderer := orderer c;
     discoveryProvider := discoveryProvider c; channels := channels c;
     chaincodes := v; cs := cs c; fetcher := fetcher c;
     fabricV2 := fabricV2 c |}.

(** The mutex [chaincodeMx] is held from entry to return; the package is
    the value its constructor gives for the five arguments of line 61. *)
Definition Chaincode (c : core) (name : string) : ChaincodePackage * core :=
  match chaincodes c !! name with
  | None =>
      let cc := chaincode_NewCorePackage name
                  (system_NewLSCC (peerPool c) (identity c))
                  (fetcher c) (orderer c) (identity c) in
      (cc, set_chaincodes c (<[name := cc]> (chaincodes c)))
  | Some cc => (cc, c)
  end.


Definition core_CurrentIdentity (c : core) : option SigningIdentity := identity c.
Definition core_CryptoSuite (c : core) : option CryptoSuite := cs c.
Definition core_PeerPool (c : core) : option PeerPool := peerPool c.
Definition core_FabricV2 (c : core) : bool := fabricV2 c.

(** ** What the parts of NewCore do, as relations between Cores *)

(** lines 180-184 *)
Definition identity_stage (identity : option Identity) (c c' : core) : Prop :=
  exists id : Identity,
    identity = Some id /\
    c' = set_identity c (Some (Identity_GetSigningIdentity id (cs c))).

(** lines 186-205 *)
Definition peerPool_stage (c c' : core) : Prop :=
  (is_Some (peerPool c) /\ c' = c) \/
  (peerPool c = None /\ is_Some (config c) /\
   c' = set_peerPool c (Some (pool_New (ctx c) (logger c)))).

(** lines 207-275 *)
Definition discovery_stage (c c' : core) : Prop :=
  ((is_Some (discoveryProvider c) \/ config c = None) /\ c' = c) \/
  (discoveryProvider c = None /\
   exists (cfg : Config) (dp : DiscoveryProvider),
     config c = Some cfg /\
     let t := Discovery_Type (Config_Discovery cfg) in
     ((t = discovery_LocalConfigServiceDiscoveryType /\
       discovery_NewLocalConfigProvider
         (Discovery_Options (Config_Discovery cfg))
         (discovery_NewTLSCertsMapper (Config_TLSCertsMap cfg)) = Ok dp /\
       c' = set_discoveryProvider c (Some dp)) \/
      (t <> discovery_LocalConfigServiceDiscoveryType /\
       t = discovery_GossipServiceDiscoveryType /\
       exists (connection : ConnectionConfig) (tls : TlsConfig),
         Discovery_Connection (Config_Discovery cfg) = Some connection /\
         c' = set_discoveryProvider
                (set_config c (Some (set_Discovery_Connection_Tls cfg connection tls)))
                (Some dp)))).

(** lines 277-289 *)
Definition orderer_stage (c c' : core) : Prop :=
  ((is_Some (orderer c) \/ config c = None \/
    exists cfg, config c = Some cfg /\ Config_Orderers cfg = []) /\ c' = c) \/
  (orderer c = None /\
   exists (cfg : Config) (conn : ClientConn) (o : Orderer),
     config c = Some cfg /\ Config_Orderers cfg <> [] /\
     util_NewGRPCConnectionFromConfigs (ctx c) (logger c) (Config_Orderers cfg) = Ok conn /\
     orderer_NewFromGRPC (ctx c) (Some conn) = Ok o /\
     c' = set_orderer c (Some o)).

(** lines 166-178 *)
Definition cs_stage (c c' : core) : Prop :=
  (is_Some (cs c) /\ c' = c) \/
  (exists (cfg : Config) (suite : CryptoSuite),
     cs c = None /\ config c = Some cfg /\
     let cfg' := if decide (Crypto_Type (Config_Crypto cfg) = "")
                 then set_Crypto cfg ecdsa_DefaultConfig else cfg in
     crypto_GetSuite (Crypto_Type (Config_Crypto cfg'))
                     (Crypto_Options (Config_Crypto cfg')) = Ok suite /\
     c' = set_cs (set_config c (Some cfg')) (Some suite)).

(** lines 158-296: how the Core that [NewCore] returns comes about from the
    Core [c1] that the options leave *)
Definition construction (identity : option Identity) (c1 c : core) : Prop :=
  exists c3 c4 c5 c6 c7 : core,
    cs_stage (default_logger (default_ctx c1)) c3 /\
    identity_stage identity c3 c4 /\
    peerPool_stage c4 c5 /\
    discovery_stage c5 c6 /\
    orderer_stage c6 c7 /\
    c = default_fetcher c7.

(** the fields no part of [NewCore] writes after the options *)
Definition untouched (c c' : core) : Prop :=
  mspId c' = mspId c /\ fabricV2 c' = fabricV2 c /\
  channels c' = channels c /\ chaincodes c' = chaincodes c.

(** the configuration is there or not as before, and where it is there it
    lists the same orderers, organisations and certificates and names the
    same kind of discovery *)
Definition config_kept (c c' : core) : Prop :=
  match config c, config c' with
  | None, None => True
  | Some cfg, Some cfg' =>
      Config_Orderers cfg' = Config_Orderers cfg /\
      Config_MSP cfg' = Config_MSP cfg /\
      Config_TLSCertsMap cfg' = Config_TLSCertsMap cfg /\
      Discovery_Type (Config_Discovery cfg') = Discovery_Type (Config_Discovery cfg) /\
      Discovery_Options (Config_Discovery cfg') = Discovery_Options (Config_Discovery cfg)
  | _, _ => False
  end.

(** nothing of what [NewCore] defaults is missing *)
Definition initialised (c : core) : Prop :=
  is_Some (ctx c) /\ is_Some (logger c) /\ is_Some (cs c) /\
  is_Some (identity c) /\ is_Some (peerPool c) /\ is_Some (fetcher c).

(** How a part of [NewCore] can end other than by falling through: a
    [return] with a result in [X]; a panic only if [P]. *)
Definition stage_ends {A} (X : NewCoreResult -> Prop) (P : Prop)
    (m : M NewCoreResult A) : Prop :=
  forall w,
    match m w with
    | Continue _ _ => True
    | Exit r _ => X r
    | Panic _ => P
    end.

(** no Core, and an error that says why *)
Definition loud (r : NewCoreResult) : Prop := r.1 = None /\ is_Some r.2.

(** the TLS mapper has settings for every address (line 230 takes them
    through a pointer) *)
Definition tls_mapper_total : Prop :=
  forall (mapper : TLSCertsMapper) (host : string),
    is_Some (TLSCertsMapper_TlsConfigForAddress mapper host).

(** the endorsers of a configuration with the name of their organisation,
    in the order of lines 194-195 *)
Definition endorsers_of (cfg : Config) : list (string * ConnectionConfig) :=
  concat (map (fun mspConfig =>
                 map (fun peerConfig => (MSP_Name mspConfig, peerConfig))
                     (MSP_Endorsers mspConfig))
              (Config_MSP cfg)).

(** the local peers of gossip discovery with their organisation, address
    by address in the order of lines 251-254 *)
Definition local_peers_of (peers : list HostEndpoint) : list (string * ConnectionConfig) :=
  concat (map (fun lp => map (fun a => (MspID lp, grpcCfg a)) (HostAddresses lp)) peers).

(** the peer of a descriptor is built and is added to the pool *)
Definition registers (c : core) (pool : PeerPool) (x : string * ConnectionConfig)
    (p : Peer) : Prop :=
  peer_New x.2 (logger c) = Ok p /\
  PeerPool_Add pool x.1 p (api_StrategyGRPC (5 * time_Second)) = None.

End Chaincodes.

(** ** Stand-ins for the collaborators

    A small network to run the Core on: three ordering nodes, of which
    one address cannot be reached, and a discovery provider that knows
    five channels. *)

Inductive StubProvider := StubLocal | StubGossip.

Definition stub_handles : Handles :=
  {| Ctx := unit; TlsConfig := bool; CryptoSuiteOpts := unit;
     DiscoveryOptions := unit; TlsCertsMap := unit; TLSCertsMapper := unit;
     CryptoSuite := string; Identity := string; SigningIdentity := string;
     Peer := string; PeerPool := unit; ClientConn := list string;
     Orderer := list string; DiscoveryProvider := StubProvider;
     CCFetcher := unit; ChaincodePackage := unit; Strategy := Z |}.

#[local] Existing Instance stub_handles.

Definition stub_address (a : string) : HostAddress :=
  {| Address := a; TLSSettings := false |}.

Definition stub_Channel (name : string) : result ChannelDiscoverer :=
  if decide (name = "down") then Err (fundamental "channel not found")
  else if decide (name = "plain") then Ok {| Orderers := []; ChannelName := name |}
  else if decide (name = "bare") then
    Ok {| Orderers := [ {| MspID := "OrdererMSP"; HostAddresses := [] |} ];
          ChannelName := name |}
  else if decide (name = "far") then
    Ok {| Orderers := [ {| MspID := "OrdererMSP";
                           HostAddresses := [stub_address "unreachable:7050"] |} ];
          ChannelName := name |}
  else
    Ok {| Orderers := [ {| MspID := "OrdererMSP";
                           HostAddresses := [stub_address "orderer0:7050";
                                             stub_address "orderer1:7050"] |};
                        {| MspID := "OrdererMSP2";
                           HostAddresses := [stub_address "orderer2:7050"] |} ];
          ChannelName := name |}.

Definition stub_connect (cfgs : list ConnectionConfig) : result ClientConn :=
  if decide (cfgs = []) then Err (fundamental "no endpoints")
  else if decide ("unreachable:7050" ∈ map Host cfgs)
       then Err (fundamental "context deadline exceeded")
       else Ok (map Host cfgs).

Definition stub : Collaborators :=
  {| api_ErrEmptyConfig := fundamental "empty core configuration";
     context_Background := tt;
     logger_DefaultLogger := {| lg_name := ""; lg_fields := [] |};
     ecdsa_DefaultConfig := {| Crypto_Type := "ecdsa"; Crypto_Options := tt |};
     crypto_GetSuite := fun t _ =>
       if decide (t = "ecdsa") then Ok t
       else Err (fundamental ("unsupported crypto suite: " +:+ t));
     Identity_GetSigningIdentity := fun id _ => id;
     SigningIdentity_Serialize := fun _ => Ok [];
     SigningIdentity_Sign := fun _ msg => Ok msg;
     pool_New := fun _ _ => tt;
     peer_New := fun cfg _ => Ok (Host cfg);
     api_StrategyGRPC := fun d => d;
     PeerPool_Add := fun _ _ _ _ => None;
     discovery_LocalConfigServiceDiscoveryType := "local";
     discovery_GossipServiceDiscoveryType := "gossip";
     discovery_NewTLSCertsMapper := fun _ => tt;
     TLSCertsMapper_TlsConfigForAddress := fun _ _ => Some false;
     discovery_NewLocalConfigProvider := fun _ _ => Ok StubLocal;
     discovery_NewGossipDiscoveryProvider := fun _ _ _ _ _ _ => Ok StubGossip;
     DiscoveryProvider_LocalPeers := fun _ _ => Ok {| Peers := [] |};
     DiscoveryProvider_Channel := fun _ _ name => stub_Channel name;
     util_NewGRPCConnectionFromConfigs := fun _ _ cfgs => stub_connect cfgs;
     orderer_NewFromGRPC := fun _ conn =>
       match conn with
       | Some hosts => Ok hosts
       | None => Ok []
       end;
     fetcher_NewLocal := tt |}.

#[local] Existing Instance stub.

(** options in the style of client/opts.go *)
Definition WithConfig (cfg : Config) : CoreOpt := fun c => (set_config c (Some cfg), None).
Definition WithCrypto (suite : CryptoSuite) : CoreOpt := fun c => (set_cs c (Some suite), None).
Definition WithPeerPool (pool : PeerPool) : CoreOpt := fun c => (set_peerPool c (Some pool), None).
Definition WithOrderer (o : Orderer) : CoreOpt := fun c => (set_orderer c (Some o), None).

Definition stub_config (discoveryType : string) : Config :=
  {| Config_Crypto := {| Crypto_Type := ""; Crypto_Options := tt |};
     Config_Orderers := [ {| Host := "orderer.example.com:7050"; Tls := false |} ];
     Config_MSP := [ {| MSP_Name := "Org1MSP";
                        MSP_Endorsers := [ {| Host := "peer0.org1:7051"; Tls := false |} ] |};
                     {| MSP_Name := "Org2MSP";
                        MSP_Endorsers := [ {| Host := "peer0.org2:7051"; Tls := false |} ] |} ];
     Config_Discovery := {| Discovery_Type := discoveryType;
                            Discovery_Connection := None;
                            Discovery_Options := tt |};
     Config_TLSCertsMap := tt |}.

Definition admin : Identity := "admin".

Definition w0 : World := {| trace := []; next_ref := 0 |}.

(** a Core as [NewCore] leaves it for the configuration with local discovery *)
Definition stub_core : core :=
  {| ctx := Some tt; logger := Some logger_DefaultLogger;
     config := Some (set_Crypto (stub_config "local") ecdsa_DefaultConfig);
     mspId := "Org1MSP"; identity := Some "admin"; peerPool := Some tt;
     orderer := Some ["orderer.example.com:7050"];
     discoveryProvider := Some StubLocal; channels := ∅; chaincodes := ∅;
     cs := Some "ecdsa"; fetcher := Some tt; fabricV2 := false |}.

(** a Core built without configuration: crypto suite and peer pool come
    from options, discovery provider and orderer stay unset *)
Definition bare_core : core :=
  {| ctx := Some tt; logger := Some logger_DefaultLogger; config := None;
     mspId := "Org1MSP"; identity := Some "admin"; peerPool := Some tt;
     orderer := None; discoveryProvider := None; channels := ∅; chaincodes := ∅;
     cs := Some "ecdsa"; fetcher := Some tt; fabricV2 := false |}.

Definition stub_packages : ChaincodeCollaborators :=
  {| LSCC := string;
     system_NewLSCC := fun _ id => default "" id;
     chaincode_NewCorePackage := fun _ _ _ _ _ => tt |}.

#[local] Existing Instance stub_packages.

(** the same network with an ordering service that turns down every
    connection that includes orderer2, and the nil connection *)
Definition strict_stub : Collaborators :=
  {| api_ErrEmptyConfig := api_ErrEmptyConfig (Collaborators := stub);
     context_Background := tt;
     logger_DefaultLogger := logger_DefaultLogger (Collaborators := stub);
     ecdsa_DefaultConfig := ecdsa_DefaultConfig (Collaborators := stub);
     crypto_GetSuite := crypto_GetSuite (Collaborators := stub);
     Identity_GetSigningIdentity := fun id _ => id;
     SigningIdentity_Serialize := fun _ => Ok [];
     SigningIdentity_Sign := fun _ msg => Ok msg;
     pool_New := fun _ _ => tt;
     peer_New := fun cfg _ =>
       if decide (Host cfg = "peer0.org2:7051")
       then Err (fundamental "connection refused") else Ok (Host cfg);
     api_StrategyGRPC := fun d => d;
     PeerPool_Add := fun _ _ _ _ => None;
     discovery_LocalConfigServiceDiscoveryType := "local";
     discovery_GossipServiceDiscoveryType := "gossip";
     discovery_NewTLSCertsMapper := fun _ => tt;
     TLSCertsMapper_TlsConfigForAddress := fun _ _ => Some false;
     discovery_NewLocalConfigProvider := fun _ _ => Ok StubLocal;
     discovery_NewGossipDiscoveryProvider := fun _ _ _ _ _ _ => Ok StubGossip;
     DiscoveryProvider_LocalPeers := fun _ _ =>
       Ok {| Peers := [ {| MspID := "Org1MSP";
                           HostAddresses := [stub_address "peer0.org1:7051";
                                             stub_address "peer1.org1:7051"] |} ] |};
     DiscoveryProvider_Channel := fun _ _ name => stub_Channel name;
     util_NewGRPCConnectionFromConfigs := fun _ _ cfgs => stub_connect cfgs;
     orderer_NewFromGRPC := fun _ conn =>
       match conn with
       | Some hosts =>
           if decide ("orderer2:7050" ∈ hosts)
           then Err (fundamental "orderer refused") else Ok hosts
       | None => Err (fundamental "no connection")
       end;
     fetcher_NewLocal := tt |}.


Definition bootstrap : ConnectionConfig := {| Host := "peer0.org1:7051"; Tls := true |}.

Definition no_tls : TlsConfig := false.

(** a configuration that names a crypto type the registry does not have *)
Definition rsa_config : Config :=
  {| Config_Crypto := {| Crypto_Type := "rsa"; Crypto_Options := tt |};
     Config_Orderers := Config_Orderers (stub_config "local");
     Config_MSP := Config_MSP (stub_config "local");
     Config_Discovery := Config_Discovery (stub_config "local");
     Config_TLSCertsMap := tt |}.

(** the configuration for gossip discovery, with its bootstrap connection *)
Definition gossip_config : Config :=
  {| Config_Crypto := Config_Crypto (stub_config "gossip");
     Config_Orderers := Config_Orderers (stub_config "gossip");
     Config_MSP := Config_MSP (stub_config "gossip");
     Config_Discovery :=
       {| Discovery_Type := "gossip";
          Discovery_Connection := Some bootstrap;
          Discovery_Options := tt |};
     Config_TLSCertsMap := tt |}.

(** unfolding of the control-flow combinators *)
Ltac flow_unfold :=
  cbv beta iota delta
    [run bind ret exit panic deref alloc Logger_Debug Logger_Info Logger_Error
     write emit call_Channel call_NewGRPCConnectionFromConfigs call_NewFromGRPC
     channel_NewCore record] in *.

Ltac flow_simpl :=
  flow_unfold; cbn [trace next_ref]; rewrite <- ?app_assoc; cbn [app].

(** what an equation between Cores says about one field *)
Ltac field_of f Heq :=
  let Hf := fresh "Hfield" in
  pose proof (f_equal f Heq) as Hf;
  cbn [ctx logger config mspId identity peerPool orderer discoveryProvider
       channels chaincodes cs fetcher fabricV2
       set_ctx set_logger set_config set_identity set_peerPool set_orderer
       set_discoveryProvider set_channels set_cs set_fetcher] in Hf.

(** the same for the seven equations of a construction *)
Ltac fields_of f F2 F3 F4 F5 F6 F7 F8 :=
  field_of f F2; field_of f F3; field_of f F4; field_of f F5; field_of f F6;
  field_of f F7; field_of f F8.

(** a call of [Channel] for a name that has to be resolved *)
Ltac channel_miss Hlg Hch Hdp :=
  unfold Channel, custom_orderer; rewrite Hlg, Hch, Hdp; flow_simpl.

Example NewCore_stub_core :
  exists w, NewCore "Org1MSP" (Some admin) [WithConfig (stub_config "local")] w0
            = Returned (Some stub_core, None) w.
Proof. eexists. vm_compute. reflexivity. Qed.

Example NewCore_bare_core :
  NewCore "Org1MSP" (Some admin) [WithCrypto "ecdsa"; WithPeerPool tt] w0
  = Returned (Some bare_core, None) w0.
Proof. vm_compute. reflexivity. Qed.

(** * Properties *)

Section Properties.
Context {H : Handles} {E : Collaborators}.

(** ** The trace *)






(** ** The flattening of the endpoints *)

Lemma append_orderer_app (cfgs : list ConnectionConfig) (ep : HostEndpoint) :
  append_orderer cfgs ep = cfgs ++ map grpcCfg (HostAddresses ep).
Proof.
  unfold append_orderer.
  assert (Hfold : forall l acc,
    fold_left (fun cfgs hostAddr => cfgs ++ [grpcCfg hostAddr]) l acc
    = acc ++ map grpcCfg l).
  { induction l as [|a l IH]; intros acc; simpl.
    - by rewrite app_nil_r.
    - rewrite IH. by rewrite <- app_assoc. }
  destruct (HostAddresses ep) as [|a l] eqn:Hl.
  - simpl. by rewrite app_nil_r.
  - change (0 <? length (a :: l))%nat with true. cbv iota. apply Hfold.
Qed.

(** The loop of lines 108-118 computes the descriptors of all addresses of
    all endpoints, in order. *)
Lemma grpcConnCfgs_of_flattened (orderers : list HostEndpoint) :
  grpcConnCfgs_of orderers = flattened orderers.
Proof.
  unfold grpcConnCfgs_of, flattened.
  assert (Hfold : forall l acc,
    fold_left append_orderer l acc
    = acc ++ concat (map (fun ep => map grpcCfg (HostAddresses ep)) l)).
  { induction l as [|ep l IH]; intros acc; simpl.
    - by rewrite app_nil_r.
    - rewrite IH, append_orderer_app. by rewrite <- app_assoc. }
  apply (Hfold orderers []).
Qed.

Lemma flattened_no_addresses (orderers : list HostEndpoint) :
  Forall (fun ep => HostAddresses ep = []) orderers -> flattened orderers = [].
Proof.
  unfold flattened. induction 1 as [|ep l Hep _ IH]; [done|].
  simpl. by rewrite Hep, IH.
Qed.

(** ** Channel: the three ways a call can go *)

Lemma Channel_cached (c : core) (name : string) (w : World) (lg : Logger)
    (ch : api_Channel) :
  logger c = Some lg ->
  channels c !! name = Some ch ->
  Channel c name w = Returned (ch, c) w.
Proof.
  intros Hlg Hch. unfold Channel. rewrite Hlg, Hch. by flow_unfold.
Qed.

(** Without a discovery provider a name that is not cached cannot be
    resolved: line 98 calls a method of a nil interface. *)
Lemma Channel_no_provider (c : core) (name : string) (w : World) (lg : Logger) :
  logger c = Some lg ->
  channels c !! name = None ->
  discoveryProvider c = None ->
  Channel c name w
  = Panicked (record (EvLog (entry DebugLevel (channel_log lg name)
                               "Channel instance doesn't exist, initiating new" [])) w).
Proof.
  intros Hlg Hch Hdp. unfold Channel. rewrite Hlg, Hch, Hdp. by flow_unfold.
Qed.

Lemma Channel_no_logger (c : core) (name : string) (w : World) :
  logger c = None -> Channel c name w = Panicked w.
Proof. intros Hlg. unfold Channel. rewrite Hlg. by flow_unfold. Qed.

(** With a provider, a name that is not cached is resolved: the provider is
    asked once, a new Channel value is built and stored under the name. *)
Lemma Channel_resolved (c : core) (name : string) (w : World) (lg : Logger)
    (dp : DiscoveryProvider) :
  logger c = Some lg ->
  channels c !! name = None ->
  discoveryProvider c = Some dp ->
  exists (ch : api_Channel) (evs : list Event),
    Channel c name w
    = Returned (ch, set_channels c (<[name := ch]> (channels c)))
        {| trace := trace w
                    ++ EvLog (entry DebugLevel (channel_log lg name)
                                "Channel instance doesn't exist, initiating new" [])
                    :: EvDiscoveryChannel name :: evs;
           next_ref := S (next_ref w) |}
    /\ ch_ref ch = next_ref w
    /\ Forall (fun e => forall m, is_query m e = false) evs.
Proof.
  intros Hlg Hch Hdp. unfold Channel, custom_orderer.
  rewrite Hlg, Hch, Hdp. flow_simpl.
  destruct (DiscoveryProvider_Channel dp (ctx c) name) as [d|e];
    [destruct (0 <? length (Orderers d))%nat;
       [destruct (util_NewGRPCConnectionFromConfigs _ _ _) as [conn|e1];
        destruct (orderer_NewFromGRPC _ _) as [o|e2] |] |];
    flow_simpl;
    eexists _, _; (split; [reflexivity|]); (split; [reflexivity|]);
    repeat constructor.
Qed.

Lemma nonempty_ltb {A} (l : list A) : l <> [] -> (0 <? length l)%nat = true.
Proof. destruct l; [done | reflexivity]. Qed.

Lemma empty_ltb {A} (l : list A) : l = [] -> (0 <? length l)%nat = false.
Proof. by intros ->. Qed.

(** C5. When the lookup of the discovery provider for a channel name fails,
    or answers with no orderer endpoint at all, the Channel value that
    [Channel] returns (and caches) is bound to the default orderer of the
    Core. *)
Theorem Channel_fallback_default_orderer (c : core) (name : string) (w : World)
    (lg : Logger) (dp : DiscoveryProvider) :
  logger c = Some lg ->
  channels c !! name = None ->
  discoveryProvider c = Some dp ->
  ((exists e, DiscoveryProvider_Channel dp (ctx c) name = Err e) \/
   (exists d, DiscoveryProvider_Channel dp (ctx c) name = Ok d /\ Orderers d = [])) ->
  exists (ch : api_Channel) (c' : core) (w' : World),
    Channel c name w = Returned (ch, c') w' /\
    ch_orderer ch = orderer c /\
    channels c' !! name = Some ch.
Proof.
  intros Hlg Hch Hdp [[e He]|[d [Hd Hnone]]]; channel_miss Hlg Hch Hdp.
  - rewrite He. flow_simpl. eexists _, _, _. split; [reflexivity|].
    split; [reflexivity|]. cbn [channels set_channels]. apply lookup_insert_eq.
  - rewrite Hd, (empty_ltb _ Hnone). flow_simpl. eexists _, _, _.
    split; [reflexivity|]. split; [reflexivity|].
    cbn [channels set_channels]. apply lookup_insert_eq.
Qed.


(** C10. When discovery answers with endpoints that all come without
    addresses, the list of descriptors is empty and the connection build is
    attempted all the same, with zero descriptors, followed by the orderer
    construction; the default orderer is bound only if that construction
    gives no orderer. With zero endpoints nothing is built and the default
    orderer is bound at once. *)
Theorem Channel_endpoints_without_addresses (c : core) (name : string) (w : World)
    (lg : Logger) (dp : DiscoveryProvider) (d : ChannelDiscoverer) :
  logger c = Some lg ->
  channels c !! name = None ->
  discoveryProvider c = Some dp ->
  DiscoveryProvider_Channel dp (ctx c) name = Ok d ->
  (Orderers d <> [] ->
   Forall (fun ep => HostAddresses ep = []) (Orderers d) ->
   grpcConnCfgs_of (Orderers d) = [] /\
   exists (ch : api_Channel) (c' : core) (w' : World) (evs : list Event),
     Channel c name w = Returned (ch, c') w' /\
     trace w' = trace w
                ++ EvLog (entry DebugLevel (channel_log lg name)
                            "Channel instance doesn't exist, initiating new" [])
                :: EvDiscoveryChannel name :: EvGRPCConnect [] :: evs /\
     ch_orderer ch =
       match orderer_NewFromGRPC (ctx c)
               match util_NewGRPCConnectionFromConfigs (ctx c) (logger c) [] with
               | Ok conn => Some conn
               | Err _ => None
               end with
       | Ok o => Some o
       | Err _ => orderer c
       end) /\
  (Orderers d = [] ->
   exists (ch : api_Channel) (c' : core) (w' : World),
     Channel c name w = Returned (ch, c') w' /\
     trace w' = trace w
                ++ [EvLog (entry DebugLevel (channel_log lg name)
                             "Channel instance doesn't exist, initiating new" []);
                    EvDiscoveryChannel name] /\
     ch_orderer ch = orderer c).
Proof.
  intros Hlg Hch Hdp Hd. split.
  - intros Hne Hbare.
    assert (Hnil : grpcConnCfgs_of (Orderers d) = []).
    { rewrite grpcConnCfgs_of_flattened. by apply flattened_no_addresses. }
    split; [exact Hnil|].
    channel_miss Hlg Hch Hdp. rewrite Hd, (nonempty_ltb _ Hne), Hnil.
    destruct (util_NewGRPCConnectionFromConfigs (ctx c) (Some lg) []) as [conn|e1];
      flow_simpl;
      destruct (orderer_NewFromGRPC (ctx c) _) as [o|e2];
      flow_simpl; eexists _, _, _, _;
      (split; [reflexivity|]); split; reflexivity.
  - intros Hnone. channel_miss Hlg Hch Hdp.
    rewrite Hd, (empty_ltb _ Hnone). flow_simpl. eexists _, _, _.
    split; [reflexivity|]. split; reflexivity.
Qed.

(** ** The connection build fails (lines 120-126) *)

(** The orderer construction that gives no orderer leaves the default one. *)
Lemma Channel_orderer_construction_fails (c : core) (name : string) (w : World)
    (lg : Logger) (dp : DiscoveryProvider) (d : ChannelDiscoverer)
    (conn : ClientConn) (e : error) :
  logger c = Some lg ->
  channels c !! name = None ->
  discoveryProvider c = Some dp ->
  DiscoveryProvider_Channel dp (ctx c) name = Ok d ->
  Orderers d <> [] ->
  util_NewGRPCConnectionFromConfigs (ctx c) (logger c) (grpcConnCfgs_of (Orderers d))
    = Ok conn ->
  orderer_NewFromGRPC (ctx c) (Some conn) = Err e ->
  exists (ch : api_Channel) (c' : core) (w' : World),
    Channel c name w = Returned (ch, c') w' /\
    ch_orderer ch = orderer c /\
    last (trace w')
    = Some (EvLog (entry ErrorLevel (channel_log lg name)
                     "Failed to construct orderer from GRPC connection" [])).
Proof.
  intros Hlg Hch Hdp Hd Hne Hconn Ho. rewrite Hlg in Hconn.
  channel_miss Hlg Hch Hdp. rewrite Hd, (nonempty_ltb _ Hne), Hconn. flow_simpl.
  rewrite Ho. flow_simpl. eexists _, _, _. split; [reflexivity|].
  split; [reflexivity|]. cbn [trace]. by rewrite last_app.
Qed.

(** After a failed connection build the orderer is constructed all the same,
    from the nil connection, and what that gives is bound. *)
Lemma Channel_connection_build_fails (c : core) (name : string) (w : World)
    (lg : Logger) (dp : DiscoveryProvider) (d : ChannelDiscoverer) (e : error) :
  logger c = Some lg ->
  channels c !! name = None ->
  discoveryProvider c = Some dp ->
  DiscoveryProvider_Channel dp (ctx c) name = Ok d ->
  Orderers d <> [] ->
  util_NewGRPCConnectionFromConfigs (ctx c) (logger c) (grpcConnCfgs_of (Orderers d))
    = Err e ->
  exists (ch : api_Channel) (c' : core) (w' : World),
    Channel c name w = Returned (ch, c') w' /\
    EvNewOrderer None ∈ trace w' /\
    ch_orderer ch = match orderer_NewFromGRPC (ctx c) None with
                    | Ok o => Some o
                    | Err _ => orderer c
                    end.
Proof.
  intros Hlg Hch Hdp Hd Hne Hconn. rewrite Hlg in Hconn.
  channel_miss Hlg Hch Hdp. rewrite Hd, (nonempty_ltb _ Hne), Hconn. flow_simpl.
  destruct (orderer_NewFromGRPC (ctx c) None) as [o|e2]; flow_simpl;
    eexists _, _, _; (split; [reflexivity|]); cbn [trace ch_orderer];
    (split; [|reflexivity]); rewrite elem_of_app, !elem_of_cons;
    right; do 4 right; left; reflexivity.
Qed.

(** ** The cache over the life of a Core *)






(** ** NewCore: postconditions of its parts *)

Lemma post_ret {A} (Q : A -> Prop) (a : A) : Q a -> stage_post Q (ret a).
Proof. intros Ha w. exact Ha. Qed.

Lemma post_exit {A} (Q : A -> Prop) (e : option error) : stage_post Q (exit (None, e)).
Proof. intros w. reflexivity. Qed.

Lemma post_bind {A B} (Q : A -> Prop) (Q' : B -> Prop)
    (m : M NewCoreResult A) (k : A -> M NewCoreResult B) :
  stage_post Q m -> (forall a, Q a -> stage_post Q' (k a)) -> stage_post Q' (bind m k).
Proof.
  intros Hm Hk w. unfold bind. specialize (Hm w).
  destruct (m w) as [a w1|r w1|w1]; [by apply Hk | done | done].
Qed.

Lemma post_weaken {A} (Q Q' : A -> Prop) (m : M NewCoreResult A) :
  (forall a, Q a -> Q' a) -> stage_post Q m -> stage_post Q' m.
Proof.
  intros HQ Hm w. specialize (Hm w). destruct (m w); [by apply HQ | done | done].
Qed.

Lemma post_deref {A} (Q : A -> Prop) (p : option A) :
  (forall a, p = Some a -> Q a) -> stage_post Q (deref p).
Proof. intros Hp w. destruct p as [a|]; [by apply Hp | done]. Qed.

Lemma post_emit (Q : unit -> Prop) (e : Event) : Q tt -> stage_post Q (emit e).
Proof. intros HQ w. exact HQ. Qed.

Lemma post_write (Q : unit -> Prop) (lvl : Level) (l : Logger) (msg : string)
    (fields : list Field) :
  Q tt -> stage_post Q (write lvl l msg fields).
Proof. intros HQ w. exact HQ. Qed.

Lemma post_for_each {A} (l : list A) (body : A -> M NewCoreResult unit) :
  (forall x, stage_post (fun _ => True) (body x)) ->
  stage_post (fun _ => True) (for_each l body).
Proof.
  intros Hbody. induction l as [|x l IH]; [by apply post_ret|].
  cbn [for_each]. eapply post_bind; [apply Hbody | intros _ _; exact IH].
Qed.

Lemma post_add_peer (c : core) (msp : string) (peerCfg : ConnectionConfig) :
  stage_post (fun _ => True) (add_peer c msp peerCfg).
Proof.
  unfold add_peer, errors_New. destruct (peer_New peerCfg (logger c)) as [p|e];
    [|apply post_exit].
  eapply post_bind; [apply (post_deref (fun _ => True)); intros; exact I|].
  intros pool _.
  eapply post_bind; [apply (post_emit (fun _ => True)); exact I|]. intros _ _.
  destruct (PeerPool_Add _ _ _ _); [apply post_exit | apply post_ret; exact I].
Qed.

(** what comes out of a call that ran to its end *)
Lemma run_post (Q : NewCoreResult -> Prop) (m : M NewCoreResult NewCoreResult)
    (w w' : World) (r : NewCoreResult) :
  stage_post Q m -> run m w = Returned r w' -> r.1 = None \/ Q r.
Proof.
  intros Hm. specialize (Hm w). unfold run.
  destruct (m w) as [a w1|r1 w1|w1]; intros Hr; inversion Hr; subst; auto.
Qed.

(** ** NewCore: the options (lines 152-156) *)

Lemma apply_options_in_order (opts : list CoreOpt) (c c1 : core) :
  options_applied_in_order opts c c1 ->
  forall (rest : list CoreOpt) (w : World),
    apply_options (opts ++ rest) c None w = apply_options rest c1 None w.
Proof.
  induction 1 as [c|opts next c c1 c2 _ IH Hopt]; intros rest w; [done|].
  rewrite <- app_assoc. rewrite IH. cbn [app apply_options]. by rewrite Hopt.
Qed.

Lemma apply_options_all (opts : list CoreOpt) (c c1 : core) (w : World) :
  options_applied_in_order opts c c1 ->
  apply_options opts c None w = Continue (c1, None) w.
Proof.
  intros Hin. rewrite <- (app_nil_r opts). by rewrite (apply_options_in_order _ _ _ Hin).
Qed.

Lemma post_apply_options (opts : list CoreOpt) (c : core) :
  stage_post (fun ce => ce.2 = None) (apply_options opts c None).
Proof.
  revert c. induction opts as [|option opts IH]; intros c; [by apply post_ret|].
  cbn [apply_options]. destruct (option c) as [c' [e|]]; [apply post_exit | apply IH].
Qed.


(** ** NewCore: what each part does to the Core *)

Lemma post_init_cs (c : core) (err : option error) :
  stage_post
    (fun ce =>
       (is_Some (cs c) /\ ce = (c, err)) \/
       (exists (cfg : Config) (suite : CryptoSuite),
          cs c = None /\ config c = Some cfg /\
          let cfg' := if decide (Crypto_Type (Config_Crypto cfg) = "")
                      then set_Crypto cfg ecdsa_DefaultConfig else cfg in
          crypto_GetSuite (Crypto_Type (Config_Crypto cfg'))
                          (Crypto_Options (Config_Crypto cfg')) = Ok suite /\
          ce = (set_cs (set_config c (Some cfg')) (Some suite), None)))
    (init_cs c err).
Proof.
  unfold init_cs. destruct (cs c) as [suite|] eqn:Hcs;
    [apply post_ret; left; by split; [eexists|] |].
  eapply post_bind; [apply (post_deref (fun _ => True)); intros; exact I|].
  intros lg _.
  eapply post_bind; [apply (post_write (fun _ => True)); exact I|]. intros _ _.
  destruct (config c) as [cfg|] eqn:Hcfg; [|apply post_exit].
  cbv zeta.
  destruct (crypto_GetSuite _ _) as [suite|e] eqn:Hsuite; [|apply post_exit].
  apply post_ret. right. exists cfg, suite. by repeat split.
Qed.

Lemma post_init_identity (c : core) (identity : option Identity) :
  stage_post (fun c' => exists si, c' = set_identity c (Some si))
             (init_identity c identity).
Proof.
  unfold init_identity, errors_New. destruct identity as [id|]; [|apply post_exit].
  apply post_ret. by eexists.
Qed.

Lemma post_init_peerPool (c : core) :
  stage_post (fun c' => c' = c \/ exists pool, c' = set_peerPool c (Some pool))
             (init_peerPool c).
Proof.
  unfold init_peerPool. destruct (peerPool c); [apply post_ret; by left|].
  eapply post_bind; [apply (post_deref (fun _ => True)); intros; exact I|].
  intros lg _.
  eapply post_bind; [apply (post_write (fun _ => True)); exact I|]. intros _ _.
  destruct (config c) as [cfg|]; [|apply post_exit].
  cbv zeta. eapply post_bind.
  - apply post_for_each. intros mspConfig. apply post_for_each. intros peerConfig.
    apply post_add_peer.
  - intros _ _. apply post_ret. right. by eexists.
Qed.

Lemma post_init_gossip (c : core) (err : option error) (cfg : Config)
    (tlsMapper : TLSCertsMapper) :
  stage_post
    (fun ce =>
       ce.2 = err /\
       exists (connection : ConnectionConfig) (tls : TlsConfig) (dp : DiscoveryProvider),
         ce.1 = set_discoveryProvider
                  (set_config c (Some (set_Discovery_Connection_Tls cfg connection tls)))
                  (Some dp))
    (init_gossip c err cfg tlsMapper).
Proof.
  unfold init_gossip.
  destruct (Discovery_Connection (Config_Discovery cfg)) as [connection|];
    [|apply post_exit].
  eapply post_bind; [apply (post_deref (fun _ => True)); intros; exact I|].
  intros signer _. cbv zeta.
  destruct (SigningIdentity_Serialize signer) as [clientIdentity|e]; [|apply post_exit].
  eapply post_bind; [apply (post_deref (fun _ => True)); intros; exact I|].
  intros tls _.
  destruct (discovery_NewGossipDiscoveryProvider _ _ _ _ _ _) as [dp|e];
    [|apply post_exit].
  destruct (DiscoveryProvider_LocalPeers _ _) as [lDiscoverer|e]; [|apply post_exit].
  eapply post_bind.
  - apply post_for_each. intros lp. apply post_for_each. intros lpAddresses.
    apply post_add_peer.
  - intros _ _. apply post_ret. split; [reflexivity|]. by eexists _, _, _.
Qed.

Lemma post_init_discoveryProvider (c : core) (err : option error) :
  stage_post
    (fun ce =>
       ce = (c, err) \/
       (exists dp, ce = (set_discoveryProvider c (Some dp), None)) \/
       (exists (cfg : Config) (connection : ConnectionConfig) (tls : TlsConfig)
               (dp : DiscoveryProvider),
          config c = Some cfg /\
          ce = (set_discoveryProvider
                  (set_config c (Some (set_Discovery_Connection_Tls cfg connection tls)))
                  (Some dp), err)))
    (init_discoveryProvider c err).
Proof.
  unfold init_discoveryProvider.
  destruct (discoveryProvider c); [apply post_ret; by left|].
  destruct (config c) as [cfg|] eqn:Hcfg; [|apply post_ret; by left].
  eapply post_bind; [apply (post_deref (fun _ => True)); intros; exact I|].
  intros lg _.
  eapply post_bind; [apply (post_write (fun _ => True)); exact I|]. intros _ _.
  cbv zeta. destruct (decide _) as [_|_].
  - destruct (discovery_NewLocalConfigProvider _ _) as [dp|e]; [|apply post_exit].
    apply post_ret. right; left. by eexists.
  - destruct (decide _) as [_|_]; [|apply post_exit].
    eapply post_weaken; [|apply post_init_gossip].
    intros [c' err'] [Herr (connection & tls & dp & Hc)]. cbn [fst snd] in *.
    subst. right; right. by eexists _, _, _, _.
Qed.

Lemma post_init_orderer (c : core) :
  stage_post (fun c' => c' = c \/ exists o, c' = set_orderer c (Some o))
             (init_orderer c).
Proof.
  unfold init_orderer. destruct (orderer c); [apply post_ret; by left|].
  destruct (config c) as [cfg|]; [|apply post_ret; by left].
  eapply post_bind; [apply (post_deref (fun _ => True)); intros; exact I|].
  intros lg _.
  eapply post_bind; [apply (post_write (fun _ => True)); exact I|]. intros _ _.
  destruct (0 <? length (Config_Orderers cfg))%nat; [|apply post_ret; by left].
  unfold call_NewGRPCConnectionFromConfigs, call_NewFromGRPC.
  eapply post_bind;
    [eapply post_bind; [apply (post_emit (fun _ => True)); exact I|];
     intros _ _; apply (post_ret (fun _ => True)); exact I|].
  intros [ordConn|e] _; [|apply post_exit].
  eapply post_bind;
    [eapply post_bind; [apply (post_emit (fun _ => True)); exact I|];
     intros _ _; apply (post_ret (fun _ => True)); exact I|].
  intros [o|e] _; [|apply post_exit].
  apply post_ret. right. by eexists.
Qed.

(** the defaults of lines 158-164 touch the context and the logger only *)

Lemma logger_defaults (c : core) : is_Some (logger (default_logger (default_ctx c))).
Proof.
  unfold default_logger, default_ctx.
  destruct (ctx c); cbn [logger set_ctx]; destruct (logger c) eqn:Hlg;
    cbn [logger set_ctx set_logger]; rewrite ?Hlg; by eexists.
Qed.

Lemma cs_defaults (c : core) : cs (default_logger (default_ctx c)) = cs c.
Proof.
  unfold default_logger, default_ctx.
  by destruct (ctx c); cbn [logger set_ctx]; destruct (logger c).
Qed.

Lemma config_defaults (c : core) : config (default_logger (default_ctx c)) = config c.
Proof.
  unfold default_logger, default_ctx.
  by destruct (ctx c); cbn [logger set_ctx]; destruct (logger c).
Qed.

(** When the parts of lines 145-205 have run, there is a logger and the
    [err] of line 145 is nil. *)
Lemma post_before_discovery (mspId : string) (identity : option Identity)
    (opts : list CoreOpt) :
  stage_post (fun ce => is_Some (logger ce.1) /\ ce.2 = None)
             (before_discovery mspId identity opts).
Proof.
  unfold before_discovery. cbv zeta.
  eapply post_bind; [apply post_apply_options|].
  intros [c err] Herr. cbn [snd] in Herr. subst err.
  pose proof (logger_defaults c) as Hlg.
  set (c2 := default_logger (default_ctx c)) in *.
  eapply post_bind; [apply post_init_cs|].
  intros [c3 err3] Hc3.
  assert (Hpost : is_Some (logger c3) /\ err3 = None).
  { destruct Hc3 as [[_ Heq]|(cfg & suite & _ & _ & _ & Heq)];
      inversion Heq; subst; by split. }
  destruct Hpost as [Hlg3 ->].
  eapply post_bind; [apply post_init_identity|].
  intros c4 [si ->].
  eapply post_bind; [apply post_init_peerPool|].
  intros c5 Hc5. apply post_ret. cbn [fst snd]. split; [|reflexivity].
  destruct Hc5 as [->|[pool ->]]; exact Hlg3.
Qed.

(** ** NewCore: the crypto suite (lines 166-178) *)

Lemma uses_default_crypto_kept (c c' : core) :
  cs c' = cs c ->
  (forall cfg, config c = Some cfg ->
     exists cfg', config c' = Some cfg' /\ Config_Crypto cfg' = Config_Crypto cfg) ->
  uses_default_crypto c -> uses_default_crypto c'.
Proof.
  intros Hcs Hcfg (cfg & suite & Hc & Hcrypto & Hsuite & Hs).
  destruct (Hcfg cfg Hc) as (cfg' & Hc' & Hsame).
  exists cfg', suite. repeat split; [done | congruence | done | congruence].
Qed.

Lemma post_discovery_default_crypto (c : core) (err : option error) :
  uses_default_crypto c ->
  stage_post (fun ce => uses_default_crypto ce.1) (init_discoveryProvider c err).
Proof.
  intros Hc. eapply post_weaken; [|apply post_init_discoveryProvider].
  intros [c' err'] [Heq|[[dp Heq]|(cfg & connection & tls & dp & Hcfg & Heq)]];
    inversion Heq; subst; cbn [fst]; [done| |].
  - eapply uses_default_crypto_kept; [| |exact Hc]; [done|]. intros cfg ?. by exists cfg.
  - eapply uses_default_crypto_kept; [| |exact Hc]; [done|].
    intros cfg0 Hcfg0. rewrite Hcfg in Hcfg0. inversion Hcfg0; subst.
    by eexists.
Qed.

(** C9. When, the options applied, there is no crypto suite but a
    configuration whose crypto type is the empty string, the suite is
    looked up for the built-in default crypto configuration: a Core that
    [NewCore] returns carries that configuration and the suite found for
    it, a failure of that lookup is the failure of [NewCore], and its
    success lets lines 166-178 hand on the Core with the default
    configuration put in and the suite set. *)
Theorem NewCore_default_crypto (mspId : string) (identity : option Identity)
    (opts : list CoreOpt) (c1 : core) (cfg : Config) (w : World) :
  options_applied_in_order opts (new_core mspId) c1 ->
  cs c1 = None ->
  config c1 = Some cfg ->
  Crypto_Type (Config_Crypto cfg) = "" ->
  (forall (c : core) (w' : World),
     NewCore mspId identity opts w = Returned (Some c, None) w' ->
     uses_default_crypto c) /\
  (forall e : error,
     crypto_GetSuite (Crypto_Type ecdsa_DefaultConfig)
                     (Crypto_Options ecdsa_DefaultConfig) = Err e ->
     exists w' : World,
       NewCore mspId identity opts w
       = Returned (None, Some (withMessage e "failed to initialize crypto suite")) w') /\
  (forall suite : CryptoSuite,
     crypto_GetSuite (Crypto_Type ecdsa_DefaultConfig)
                     (Crypto_Options ecdsa_DefaultConfig) = Ok suite ->
     let c2 := default_logger (default_ctx c1) in
     exists w' : World,
       init_cs c2 None w
       = Continue (set_cs (set_config c2 (Some (set_Crypto cfg ecdsa_DefaultConfig)))
                          (Some suite), None) w').
Proof.
  intros Hopts Hcs Hcfg Htype. split; [|split].
  - intros c w' Hrun. unfold NewCore in Hrun.
    apply (run_post (fun r => exists c, r = (Some c, None) /\ uses_default_crypto c))
      in Hrun.
    { destruct Hrun as [Hnone|(c0 & Heq & Hc0)]; [done|]. by inversion Heq; subst. }
    eapply (post_bind (fun ce => uses_default_crypto ce.1)).
    + unfold before_discovery. cbv zeta.
      eapply (post_bind (fun ce => ce = (c1, None))).
      { intros w1. by rewrite (apply_options_all _ _ _ _ Hopts). }
      intros ce ->.
      eapply post_bind; [apply post_init_cs|].
      intros [c3 err3] Hc3.
      assert (Hdef : uses_default_crypto c3).
      { rewrite cs_defaults, config_defaults in Hc3.
        destruct Hc3 as [[[suite Hsome] _]|(cfg0 & suite & _ & Hcfg0 & Hok & Heq)];
          [congruence|].
        rewrite Hcfg in Hcfg0. inversion Hcfg0; subst cfg0.
        cbv zeta in Hok, Heq. rewrite Htype in Hok, Heq.
        destruct (decide ("" = "")) as [_|?]; [|done].
        cbn [Config_Crypto set_Crypto] in Hok.
        inversion Heq; subst. by eexists _, suite. }
      eapply post_bind; [apply post_init_identity|].
      intros c4 [si ->].
      eapply post_bind; [apply post_init_peerPool|].
      intros c5 Hc5. apply post_ret. cbn [fst].
      destruct Hc5 as [->|[pool ->]];
        (eapply uses_default_crypto_kept; [| |exact Hdef]; [done|]);
        intros cfg0 ?; by exists cfg0.
    + intros [c5 err5] Hc5. cbn [fst] in Hc5.
      eapply post_bind; [by apply post_discovery_default_crypto|].
      intros [c6 err6] Hc6. cbn [fst] in Hc6.
      eapply post_bind; [apply post_init_orderer|].
      intros c7 Hc7. apply post_ret. eexists. split; [reflexivity|].
      assert (Hc7' : uses_default_crypto c7).
      { destruct Hc7 as [->|[o ->]]; [done|].
        eapply uses_default_crypto_kept; [| |exact Hc6]; [done|].
        intros cfg0 ?; by exists cfg0. }
      unfold default_fetcher. destruct (fetcher c7); [done|].
      eapply uses_default_crypto_kept; [| |exact Hc7']; [done|].
      intros cfg0 ?; by exists cfg0.
  - intros e He. unfold NewCore, before_discovery. cbv beta iota zeta delta [run bind].
    rewrite (apply_options_all _ _ _ _ Hopts). cbv beta iota.
    unfold init_cs. rewrite cs_defaults, Hcs, config_defaults, Hcfg.
    destruct (logger_defaults c1) as [lg Hlg]. rewrite Hlg.
    rewrite Htype. destruct (decide ("" = "")) as [_|?]; [|done].
    cbn [Config_Crypto set_Crypto]. rewrite He. flow_simpl. by eexists.
  - intros suite Hsuite c2. subst c2. unfold init_cs.
    rewrite cs_defaults, Hcs, config_defaults, Hcfg.
    destruct (logger_defaults c1) as [lg Hlg]. rewrite Hlg.
    rewrite Htype. destruct (decide ("" = "")) as [_|?]; [|done].
    cbn [Config_Crypto set_Crypto]. rewrite Hsuite. flow_simpl. by eexists.
Qed.

(** ** NewCore: the discovery provider (lines 207-275) *)

(** Without a configuration nothing is set up: no discovery provider, no
    orderer, and no error. *)
Lemma NewCore_without_config (mspId : string) (identity : option Identity)
    (opts : list CoreOpt) (w w1 : World) (c : core) (err : option error) :
  before_discovery mspId identity opts w = Continue (c, err) w1 ->
  config c = None ->
  NewCore mspId identity opts w = Returned (Some (default_fetcher c), None) w1
  /\ discoveryProvider (default_fetcher c) = discoveryProvider c.
Proof.
  intros Hbefore Hcfg. split.
  - unfold NewCore. cbv beta iota zeta delta [run bind]. rewrite Hbefore.
    cbv beta iota. unfold init_discoveryProvider, init_orderer. rewrite Hcfg.
    destruct (discoveryProvider c); flow_simpl; rewrite Hcfg;
      destruct (orderer c); reflexivity.
  - unfold default_fetcher. by destruct (fetcher c).
Qed.

(** Gossip discovery without a bootstrap connection: line 220 wraps the
    [err] of line 145, which is nil, and [errors.Wrap] of nil is nil. *)
Lemma NewCore_gossip_without_connection (mspId : string) (identity : option Identity)
    (opts : list CoreOpt) (w w1 : World) (c : core) (err : option error)
    (cfg : Config) :
  before_discovery mspId identity opts w = Continue (c, err) w1 ->
  discoveryProvider c = None ->
  config c = Some cfg ->
  Discovery_Type (Config_Discovery cfg) = discovery_GossipServiceDiscoveryType ->
  discovery_GossipServiceDiscoveryType <> discovery_LocalConfigServiceDiscoveryType ->
  Discovery_Connection (Config_Discovery cfg) = None ->
  exists w' : World, NewCore mspId identity opts w = Returned (None, None) w'.
Proof.
  intros Hbefore Hdp Hcfg Htype Hdiff Hconn.
  pose proof (post_before_discovery mspId identity opts w) as Hpost.
  rewrite Hbefore in Hpost. cbn [fst snd] in Hpost. destruct Hpost as [[lg Hlg] ->].
  unfold NewCore. cbv beta iota zeta delta [run bind]. rewrite Hbefore.
  unfold init_discoveryProvider, init_gossip. rewrite Hdp, Hcfg, Hlg, Htype, Hconn.
  flow_simpl.
  destruct (decide _) as [?|_]; [done|]. destruct (decide _) as [_|?]; [|done].
  cbn [errors_Wrap]. by eexists.
Qed.

(** C4, as the code has it. When the parts before the discovery provider
    have run and leave no provider but a configuration whose discovery type
    is not set, the empty string being the name of neither kind of
    discovery, [NewCore] returns no Core and the error of an unknown
    discovery type. *)
Theorem NewCore_discovery_type_not_set (mspId : string) (identity : option Identity)
    (opts : list CoreOpt) (w w1 : World) (c : core) (err : option error)
    (cfg : Config) :
  before_discovery mspId identity opts w = Continue (c, err) w1 ->
  discoveryProvider c = None ->
  config c = Some cfg ->
  Discovery_Type (Config_Discovery cfg) = "" ->
  discovery_LocalConfigServiceDiscoveryType <> "" ->
  discovery_GossipServiceDiscoveryType <> "" ->
  exists w' : World,
    NewCore mspId identity opts w
    = Returned (None, Some (unknown_discovery_type "")) w'.
Proof.
  intros Hbefore Hdp Hcfg Htype Hlocal Hgossip.
  pose proof (post_before_discovery mspId identity opts w) as Hpost.
  rewrite Hbefore in Hpost. cbn [fst snd] in Hpost. destruct Hpost as [[lg Hlg] ->].
  unfold NewCore. cbv beta iota zeta delta [run bind]. rewrite Hbefore.
  unfold init_discoveryProvider. rewrite Hdp, Hcfg, Hlg, Htype. flow_simpl.
  destruct (decide _) as [?|_]; [done|]. destruct (decide _) as [?|_]; [done|].
  by eexists.
Qed.

End Properties.

(** * The Core on the stand-in network *)

(** C1. A Core built without configuration has no discovery provider
    ([NewCore] allows it), and [Channel] on it does not return a Channel
    bound to the default orderer: after the debug record the lookup of line
    98 goes through the nil provider and the call panics. *)
Theorem Channel_without_discovery_panics :
  NewCore "Org1MSP" (Some admin) [WithCrypto "ecdsa"; WithPeerPool tt] w0
  = Returned (Some bare_core, None) w0 /\
  discoveryProvider bare_core = None /\
  Channel bare_core "mychannel" w0
  = Panicked {| trace := [EvLog (entry DebugLevel
                                   (channel_log logger_DefaultLogger "mychannel")
                                   "Channel instance doesn't exist, initiating new" [])];
                next_ref := 0 |}.
Proof.
  split; [vm_compute; reflexivity|]. split; [reflexivity|].
  by rewrite (Channel_no_provider bare_core "mychannel" w0 logger_DefaultLogger).
Qed.

(** C2. For a configuration with gossip discovery and no bootstrap
    connection, [NewCore] returns no Core and no error either: the error of
    line 220 is [errors.Wrap] of a nil error. *)
Theorem NewCore_gossip_without_connection_returns_nil_error :
  Discovery_Type (Config_Discovery (stub_config "gossip"))
  = discovery_GossipServiceDiscoveryType /\
  Discovery_Connection (Config_Discovery (stub_config "gossip")) = None /\
  returned (NewCore "Org1MSP" (Some admin) [WithConfig (stub_config "gossip")] w0)
  = Some (None, None).
Proof. split; [reflexivity|]. split; [reflexivity|]. vm_compute. reflexivity. Qed.

(** C3. Discovery answers with an endpoint, the connection build over its
    address fails, and the Channel is bound all the same to an orderer made
    for the channel, the one constructed from the nil connection, not to the
    default orderer. *)
Theorem Channel_failed_connection_not_default :
  util_NewGRPCConnectionFromConfigs (ctx stub_core) (logger stub_core)
    [grpcCfg (stub_address "unreachable:7050")]
  = Err (fundamental "context deadline exceeded") /\
  orderer stub_core = Some ["orderer.example.com:7050"] /\
  bound_orderer (Channel stub_core "far" w0) = Some (Some []).
Proof. split; [reflexivity|]. split; [reflexivity|]. vm_compute. reflexivity. Qed.

(** C4 does not hold as stated: with a configuration whose discovery type is
    not set, [NewCore] returns an error and no Core. *)
Lemma NewCore_discovery_type_not_set_is_an_error :
  config (WithConfig (stub_config "") (new_core "Org1MSP")).1 = Some (stub_config "") /\
  Discovery_Type (Config_Discovery (stub_config "")) = "" /\
  returned (NewCore "Org1MSP" (Some admin) [WithConfig (stub_config "")] w0)
  = Some (None, Some (fundamental "unknown discovery type=. available: local, gossip")) /\
  ~ (exists (c : core) (w' : World),
       NewCore "Org1MSP" (Some admin) [WithConfig (stub_config "")] w0
       = Returned (Some c, None) w').
Proof.
  split; [reflexivity|]. split; [reflexivity|].
  split; [vm_compute; reflexivity|].
  intros (c & w' & Hrun). apply (f_equal returned) in Hrun.
  vm_compute in Hrun. discriminate Hrun.
Qed.

(** the configuration of the stand-in network with the discovery type left out *)
Lemma NewCore_discovery_type_not_set_witness :
  exists w' : World,
    NewCore "Org1MSP" (Some admin) [WithConfig (stub_config "")] w0
    = Returned (None, Some (unknown_discovery_type "")) w'.
Proof.
  eapply (NewCore_discovery_type_not_set (H := stub_handles) (E := stub) "Org1MSP" (Some admin)
            [WithConfig (stub_config "")] w0).
  - vm_compute. reflexivity.
  - reflexivity.
  - reflexivity.
  - reflexivity.
  - discriminate.
  - discriminate.
Defined.

(** the channel the stand-in provider fails for *)
Lemma Channel_fallback_default_orderer_witness :
  exists (ch : api_Channel) (c' : core) (w' : World),
    Channel stub_core "down" w0 = Returned (ch, c') w' /\
    ch_orderer ch = orderer stub_core /\
    channels c' !! "down" = Some ch.
Proof.
  apply (Channel_fallback_default_orderer (H := stub_handles) (E := stub) stub_core "down" w0
           logger_DefaultLogger StubLocal).
  - reflexivity.
  - reflexivity.
  - reflexivity.
  - left. eexists. reflexivity.
Defined.




(** the configuration of the stand-in network leaves the crypto type empty *)
Lemma NewCore_default_crypto_witness : uses_default_crypto stub_core.
Proof.
  refine (proj1 (NewCore_default_crypto (H := stub_handles) (E := stub) "Org1MSP" (Some admin)
                   [WithConfig (stub_config "local")]
                   (set_config (new_core "Org1MSP") (Some (stub_config "local")))
                   (stub_config "local") w0 _ _ _ _) stub_core _ _).
  - apply (applied_next [] (WithConfig (stub_config "local")) (new_core "Org1MSP")
             (new_core "Org1MSP")); [apply applied_none | reflexivity].
  - reflexivity.
  - reflexivity.
  - reflexivity.
  - vm_compute. reflexivity.
Defined.

(** the channel whose only endpoint has no address *)
Lemma Channel_endpoints_without_addresses_witness :
  grpcConnCfgs_of [ {| MspID := "OrdererMSP"; HostAddresses := [] |} ] = [] /\
  exists (ch : api_Channel) (c' : core) (w' : World) (evs : list Event),
    Channel stub_core "bare" w0 = Returned (ch, c') w' /\
    trace w' = trace w0
               ++ EvLog (entry DebugLevel (channel_log logger_DefaultLogger "bare")
                           "Channel instance doesn't exist, initiating new" [])
               :: EvDiscoveryChannel "bare" :: EvGRPCConnect [] :: evs /\
    ch_orderer ch = Some [].
Proof.
  refine (proj1 (Channel_endpoints_without_addresses (H := stub_handles) (E := stub) stub_core "bare" w0
                   logger_DefaultLogger StubLocal
                   {| Orderers := [ {| MspID := "OrdererMSP"; HostAddresses := [] |} ];
                      ChannelName := "bare" |} _ _ _ _) _ _).
  - reflexivity.
  - reflexivity.
  - reflexivity.
  - reflexivity.
  - discriminate.
  - repeat constructor.
Defined.

(** * Further properties *)

Section FurtherProperties.
Context {H : Handles} {E : Collaborators} {P : ChaincodeCollaborators}.

(** ** Chaincode: the cache of packages *)

Lemma Chaincode_cached (c : core) (name : string) (cc : ChaincodePackage) :
  chaincodes c !! name = Some cc -> Chaincode c name = (cc, c).
Proof. intros Hcc. unfold Chaincode. by rewrite Hcc. Qed.





(** ** Channel and Chaincode: two caches side by side *)

(** what a call of [Channel] that returns leaves of the Core *)
Lemma Channel_returned_core (c c' : core) (name : string) (w w' : World)
    (ch : api_Channel) :
  Channel c name w = Returned (ch, c') w' ->
  (c' = c /\ channels c !! name = Some ch) \/
  (channels c !! name = None /\ c' = set_channels c (<[name := ch]> (channels c))).
Proof.
  intros Hrun.
  destruct (logger c) as [lg|] eqn:Hlg; [|by rewrite Channel_no_logger in Hrun].
  destruct (channels c !! name) as [ch0|] eqn:Hch.
  - rewrite (Channel_cached _ _ _ _ _ Hlg Hch) in Hrun. inversion Hrun; subst. by left.
  - destruct (discoveryProvider c) as [dp|] eqn:Hdp;
      [|by rewrite (Channel_no_provider _ _ _ _ Hlg Hch Hdp) in Hrun].
    destruct (Channel_resolved c name w lg dp Hlg Hch Hdp) as (ch1 & evs & Heq & _).
    rewrite Heq in Hrun. inversion Hrun; subst. by right.
Qed.

Lemma Channel_set_chaincodes (c : core) (v : gmap string ChaincodePackage)
    (name : string) (w : World) :
  Channel (set_chaincodes c v) name w
  = match Channel c name w with
    | Returned (ch, c1) w1 => Returned (ch, set_chaincodes c1 v) w1
    | Panicked w1 => Panicked w1
    end.
Proof.
  unfold Channel, custom_orderer.
  cbn [logger channels discoveryProvider ctx orderer mspId peerPool identity
       fabricV2 set_chaincodes].
  destruct (logger c) as [lg|]; [|reflexivity].
  destruct (channels c !! name) as [ch0|]; [reflexivity|].
  destruct (discoveryProvider c) as [dp|]; [|reflexivity].
  flow_simpl.
  destruct (DiscoveryProvider_Channel dp (ctx c) name) as [d|e];
    [destruct (0 <? length (Orderers d))%nat;
       [destruct (util_NewGRPCConnectionFromConfigs _ _ _) as [conn|e1];
        destruct (orderer_NewFromGRPC _ _) as [o|e2] |] |];
    flow_simpl; reflexivity.
Qed.

Lemma Channel_leaves_packages (c : core) (name : string) (w : World) :
  forall (ch : api_Channel) (c1 : core) (w1 : World),
    Channel c name w = Returned (ch, c1) w1 ->
    chaincodes c1 = chaincodes c /\ peerPool c1 = peerPool c /\
    identity c1 = identity c /\ fetcher c1 = fetcher c /\
    orderer c1 = orderer c.
Proof.
  intros ch c1 w1 Hrun.
  destruct (Channel_returned_core _ _ _ _ _ _ Hrun) as [[-> _]|[_ ->]]; done.
Qed.

(** X2. The two caches do not meet. A call of [Chaincode] leaves the cache
    of channels alone and a call of [Channel] the cache of packages, and
    the two calls can be made in either order: the Channel, the package,
    the Core and the trace come out the same. *)
Theorem Chaincode_Channel_commute (c : core) (cname name : string) (w : World) :
  channels (Chaincode c cname).2 = channels c /\
  Channel (Chaincode c cname).2 name w
  = match Channel c name w with
    | Returned (ch, c1) w1 => Returned (ch, (Chaincode c1 cname).2) w1
    | Panicked w1 => Panicked w1
    end /\
  (forall (ch : api_Channel) (c1 : core) (w1 : World),
     Channel c name w = Returned (ch, c1) w1 ->
     chaincodes c1 = chaincodes c /\
     (Chaincode c1 cname).1 = (Chaincode c cname).1).
Proof.
  split; [|split].
  - unfold Chaincode. by destruct (chaincodes c !! cname).
  - unfold Chaincode at 1.
    destruct (chaincodes c !! cname) as [cc|] eqn:Hcc; cbn [snd].
    + destruct (Channel c name w) as [[ch c1] w1|w1] eqn:Hrun; [|done].
      destruct (Channel_leaves_packages _ _ _ _ _ _ Hrun) as (Hsame & _).
      by rewrite (Chaincode_cached c1 cname cc); [|rewrite Hsame].
    + rewrite Channel_set_chaincodes.
      destruct (Channel c name w) as [[ch c1] w1|w1] eqn:Hrun; [|done].
      destruct (Channel_leaves_packages _ _ _ _ _ _ Hrun) as (Hsame & Hpool & Hid & Hfetch & Hord).
      unfold Chaincode. rewrite Hsame, Hcc, Hpool, Hid, Hfetch, Hord. done.
  - intros ch c1 w1 Hrun.
    destruct (Channel_leaves_packages _ _ _ _ _ _ Hrun) as (Hsame & Hpool & Hid & Hfetch & Hord).
    split; [exact Hsame|]. unfold Chaincode.
    rewrite Hsame, Hpool, Hid, Hfetch, Hord. by destruct (chaincodes c !! cname).
Qed.

Lemma call_leaves_packages (c : core) (name : string) (w : World) :
  chaincodes (call c name w).1 = chaincodes c /\ peerPool (call c name w).1 = peerPool c /\
  identity (call c name w).1 = identity c /\ fetcher (call c name w).1 = fetcher c /\
  orderer (call c name w).1 = orderer c.
Proof.
  unfold call. destruct (Channel c name w) as [[ch c1] w1|w1] eqn:Hrun; [|done].
  exact (Channel_leaves_packages _ _ _ _ _ _ Hrun).
Qed.

Lemma calls_leave_packages (names : list string) (c : core) (w : World) :
  chaincodes (calls names c w).1 = chaincodes c /\
  peerPool (calls names c w).1 = peerPool c /\
  identity (calls names c w).1 = identity c /\
  fetcher (calls names c w).1 = fetcher c /\
  orderer (calls names c w).1 = orderer c.
Proof.
  revert c w. induction names as [|name names IH]; intros c w; [done|].
  cbn [calls]. pose proof (call_leaves_packages c name w) as Hstep.
  destruct (call c name w) as [c1 w1]. cbn [fst] in Hstep.
  destruct Hstep as (<- & <- & <- & <- & <-). apply IH.
Qed.

(** X3. A package is built with the default orderer of the Core. However
    many channels have been resolved before, with or without orderers of
    their own, the package that [Chaincode] makes for a name not yet cached
    is the one for the peer pool, identity, fetcher and default orderer the
    Core had from the start. *)
Theorem Chaincode_default_orderer (c : core) (names : list string) (w : World)
    (name : string) :
  chaincodes c !! name = None ->
  (Chaincode (calls names c w).1 name).1
  = chaincode_NewCorePackage name (system_NewLSCC (peerPool c) (identity c))
      (fetcher c) (orderer c) (identity c).
Proof.
  intros Hcc. destruct (calls_leave_packages names c w) as (Hsame & Hp & Hi & Hf & Ho).
  unfold Chaincode. by rewrite Hsame, Hcc, Hp, Hi, Hf, Ho.
Qed.

(** ** Channel: when it returns, and what it leaves *)



(** X5. A call of [Channel] that returns changes nothing of the Core but
    the cache of channels, and of that only the entry of the name, which
    afterwards holds the Channel returned; what was in the trace before is
    still there, in front. *)
Theorem Channel_frame (c c' : core) (name : string) (w w' : World) (ch : api_Channel) :
  Channel c name w = Returned (ch, c') w' ->
  channels c' !! name = Some ch /\
  (forall m : string, m <> name -> channels c' !! m = channels c !! m) /\
  c' = set_channels c (channels c') /\
  trace w `prefix_of` trace w'.
Proof.
  intros Hrun.
  destruct (logger c) as [lg|] eqn:Hlg; [|by rewrite Channel_no_logger in Hrun].
  destruct (channels c !! name) as [ch0|] eqn:Hch.
  - rewrite (Channel_cached _ _ _ _ _ Hlg Hch) in Hrun.
    injection Hrun as <- <- <-.
    split; [done|]. split; [done|]. split; [by destruct c | done].
  - destruct (discoveryProvider c) as [dp|] eqn:Hdp;
      [|by rewrite (Channel_no_provider _ _ _ _ Hlg Hch Hdp) in Hrun].
    destruct (Channel_resolved c name w lg dp Hlg Hch Hdp) as (ch1 & evs & Heq & _).
    rewrite Heq in Hrun. injection Hrun as <- <- <-.
    cbn [channels set_channels trace].
    split; [apply lookup_insert_eq|].
    split; [intros m Hm; by rewrite lookup_insert_ne|].
    split; [done | by eexists].
Qed.


(** ** NewCore: from the parts to the whole *)

Lemma post_continue {A} (Q : A -> Prop) (m : M NewCoreResult A) (w w1 : World) (a : A) :
  stage_post Q m -> m w = Continue a w1 -> Q a.
Proof. intros Hm Hw. specialize (Hm w). by rewrite Hw in Hm. Qed.

Lemma bind_continue_inv {A B} (m : M NewCoreResult A) (k : A -> M NewCoreResult B)
    (w w' : World) (b : B) :
  bind m k w = Continue b w' ->
  exists (a : A) (w1 : World), m w = Continue a w1 /\ k a w1 = Continue b w'.
Proof.
  unfold bind. destruct (m w) as [a w1|r w1|w1]; [|done|done]. intros Hk. by exists a, w1.
Qed.

Lemma run_bind_inv {A} (Q : A -> Prop) (m : M NewCoreResult A)
    (k : A -> M NewCoreResult NewCoreResult) (w w' : World) (c : core)
    (e : option error) :
  stage_post Q m ->
  run (bind m k) w = Returned (Some c, e) w' ->
  exists (a : A) (w1 : World),
    m w = Continue a w1 /\ Q a /\ run (k a) w1 = Returned (Some c, e) w'.
Proof.
  intros Hm. specialize (Hm w). unfold run, bind.
  destruct (m w) as [a w1|r w1|w1]; [|intros Hr|done].
  - intros Hk. by exists a, w1.
  - injection Hr as -> _. done.
Qed.

Lemma applied_first (first : CoreOpt) (opts : list CoreOpt) (c c1 c2 : core) :
  first c = (c1, None) ->
  options_applied_in_order opts c1 c2 ->
  options_applied_in_order (first :: opts) c c2.
Proof.
  intros Hfirst. induction 1 as [c1|opts next c1 c2 c3 _ IH Hnext].
  - apply (applied_next [] first c c); [constructor | done].
  - apply (applied_next (first :: opts) next c c2 c3); [by apply IH | done].
Qed.

(** the loop of lines 152-156 falls through only when every option has
    been applied, and it leaves no error and no trace *)
Lemma apply_options_continue (opts : list CoreOpt) (c c1 : core)
    (err : option error) (w w1 : World) :
  apply_options opts c None w = Continue (c1, err) w1 ->
  options_applied_in_order opts c c1 /\ err = None /\ w1 = w.
Proof.
  revert c. induction opts as [|first opts IH]; intros c; cbn [apply_options].
  - intros Hr. injection Hr as <- <- <-. split; [constructor | done].
  - destruct (first c) as [c' [e|]] eqn:Hfirst; [done|].
    intros Hr. destruct (IH _ Hr) as (Hin & -> & ->).
    split; [by eapply applied_first | done].
Qed.

Lemma options_applied_once (opts : list CoreOpt) (c c1 c2 : core) :
  options_applied_in_order opts c c1 ->
  options_applied_in_order opts c c2 -> c1 = c2.
Proof.
  intros H1 H2.
  pose proof (apply_options_all opts c c1 {| trace := []; next_ref := 0 |} H1) as E1.
  rewrite (apply_options_all opts c c2 _ H2) in E1. by injection E1.
Qed.

Lemma post_cs_stage (c : core) (err : option error) :
  stage_post (fun ce => cs_stage c ce.1) (init_cs c err).
Proof.
  eapply post_weaken; [|apply post_init_cs].
  intros [c' err'] [[Hsome Heq]|(cfg & suite & Hcs & Hcfg & Hok & Heq)];
    injection Heq as -> _; cbn [fst]; [by left | right; by exists cfg, suite].
Qed.

Lemma post_identity_stage (c : core) (identity : option Identity) :
  stage_post (identity_stage identity c) (init_identity c identity).
Proof.
  unfold init_identity, errors_New. destruct identity as [id|]; [|apply post_exit].
  apply post_ret. by exists id.
Qed.

Lemma post_peerPool_stage (c : core) :
  stage_post (peerPool_stage c) (init_peerPool c).
Proof.
  unfold init_peerPool, peerPool_stage.
  destruct (peerPool c) as [pp|];
    [apply post_ret; left; split; [by eexists | done] |].
  eapply post_bind; [apply (post_deref (fun _ => True)); intros; exact I|].
  intros lg _.
  eapply post_bind; [apply (post_write (fun _ => True)); exact I|]. intros _ _.
  destruct (config c) as [cfg|]; [|apply post_exit].
  cbv zeta. eapply post_bind.
  - apply post_for_each. intros mspConfig. apply post_for_each. intros peerConfig.
    apply post_add_peer.
  - intros _ _. apply post_ret. right. split; [done|]. split; [by eexists | done].
Qed.

Lemma post_discovery_stage (c : core) (err : option error) :
  stage_post (fun ce => discovery_stage c ce.1) (init_discoveryProvider c err).
Proof.
  unfold init_discoveryProvider, discovery_stage.
  destruct (discoveryProvider c) as [dp0|] eqn:Hdp;
    [apply post_ret; left; split; [left; by eexists | done] |].
  destruct (config c) as [cfg|] eqn:Hcfg; [|apply post_ret; left; split; [by right | done]].
  eapply post_bind; [apply (post_deref (fun _ => True)); intros; exact I|].
  intros lg _.
  eapply post_bind; [apply (post_write (fun _ => True)); exact I|]. intros _ _.
  cbv zeta. destruct (decide _) as [Hlocal|Hlocal].
  - destruct (discovery_NewLocalConfigProvider _ _) as [dp|e] eqn:Hnew; [|apply post_exit].
    apply post_ret. right. split; [done|]. exists cfg, dp. split; [done|]. by left.
  - destruct (decide _) as [Hgossip|_]; [|apply post_exit].
    unfold init_gossip.
    destruct (Discovery_Connection (Config_Discovery cfg)) as [connection|] eqn:Hconn;
      [|apply post_exit].
    eapply post_bind; [apply (post_deref (fun _ => True)); intros; exact I|].
    intros signer _. cbv zeta.
    destruct (SigningIdentity_Serialize signer) as [clientIdentity|e]; [|apply post_exit].
    eapply post_bind; [apply (post_deref (fun _ => True)); intros; exact I|].
    intros tls _.
    destruct (discovery_NewGossipDiscoveryProvider _ _ _ _ _ _) as [dp|e];
      [|apply post_exit].
    destruct (DiscoveryProvider_LocalPeers _ _) as [lDiscoverer|e]; [|apply post_exit].
    eapply post_bind.
    + apply post_for_each. intros lp. apply post_for_each. intros lpAddresses.
      apply post_add_peer.
    + intros _ _. apply post_ret. cbn [fst]. right. split; [done|].
      exists cfg, dp. split; [done|]. right. do 2 (split; [done|]).
      by exists connection, tls.
Qed.

Lemma post_orderer_stage (c : core) :
  stage_post (orderer_stage c) (init_orderer c).
Proof.
  unfold init_orderer, orderer_stage.
  destruct (orderer c) as [o0|];
    [apply post_ret; left; split; [left; by eexists | done] |].
  destruct (config c) as [cfg|] eqn:Hcfg;
    [|apply post_ret; left; split; [right; by left | done]].
  eapply post_bind; [apply (post_deref (fun _ => True)); intros; exact I|].
  intros lg _.
  eapply post_bind; [apply (post_write (fun _ => True)); exact I|]. intros _ _.
  destruct (Config_Orderers cfg) as [|x l] eqn:Hords.
  { apply post_ret. left. split; [|done]. right; right. by exists cfg. }
  change (0 <? length (x :: l))%nat with true. cbv iota.
  unfold call_NewGRPCConnectionFromConfigs, call_NewFromGRPC.
  eapply (post_bind (fun r => r = util_NewGRPCConnectionFromConfigs (ctx c) (logger c) (x :: l))).
  { eapply post_bind; [apply (post_emit (fun _ => True)); exact I|].
    intros _ _. by apply post_ret. }
  intros r ->.
  destruct (util_NewGRPCConnectionFromConfigs _ _ _) as [ordConn|e] eqn:Hconn;
    [|apply post_exit].
  eapply (post_bind (fun r => r = orderer_NewFromGRPC (ctx c) (Some ordConn))).
  { eapply post_bind; [apply (post_emit (fun _ => True)); exact I|].
    intros _ _. by apply post_ret. }
  intros r ->.
  destruct (orderer_NewFromGRPC _ _) as [o|e] eqn:Ho; [|apply post_exit].
  apply post_ret. right. split; [done|]. exists cfg, ordConn, o.
  rewrite Hords. by repeat split.
Qed.

(** Whenever [NewCore] returns a Core it returns no error, every option
    has been applied, in order, and the Core has come about through the
    parts of lines 158-296. *)
Lemma NewCore_returned (mspId : string) (identity : option Identity)
    (opts : list CoreOpt) (w w' : World) (c : core) (e : option error) :
  NewCore mspId identity opts w = Returned (Some c, e) w' ->
  e = None /\
  exists c1 : core,
    options_applied_in_order opts (new_core mspId) c1 /\
    construction identity c1 c.
Proof.
  intros Hrun. unfold NewCore in Hrun.
  apply (run_bind_inv _ _ _ _ _ _ _ (post_before_discovery mspId identity opts)) in Hrun
    as ([c5 err5] & w5 & Hbefore & _ & Hrun).
  cbv beta iota in Hrun.
  apply (run_bind_inv _ _ _ _ _ _ _ (post_discovery_stage c5 err5)) in Hrun
    as ([c6 err6] & w6 & _ & Hdisc & Hrun).
  cbv beta iota in Hrun. cbn [fst] in Hdisc.
  apply (run_bind_inv _ _ _ _ _ _ _ (post_orderer_stage c6)) in Hrun
    as (c7 & w7 & _ & Hord & Hrun).
  cbv beta iota zeta delta [run ret] in Hrun. injection Hrun as <- <- <-.
  split; [done|].
  unfold before_discovery in Hbefore. cbv zeta in Hbefore.
  apply bind_continue_inv in Hbefore as ([c1 err1] & w1 & Hopts & Hbefore).
  apply apply_options_continue in Hopts as (Hopts & -> & ->).
  cbv beta iota in Hbefore.
  apply bind_continue_inv in Hbefore as ([c3 err3] & w3 & Hcs & Hbefore).
  apply (post_continue _ _ _ _ _ (post_cs_stage _ _)) in Hcs. cbn [fst] in Hcs.
  cbv beta iota in Hbefore.
  apply bind_continue_inv in Hbefore as (c4 & w4 & Hid & Hbefore).
  apply (post_continue _ _ _ _ _ (post_identity_stage _ _)) in Hid.
  apply bind_continue_inv in Hbefore as (c5' & w5' & Hpool & Hbefore).
  apply (post_continue _ _ _ _ _ (post_peerPool_stage _)) in Hpool.
  cbv beta iota delta [ret] in Hbefore. injection Hbefore as -> _ _.
  exists c1. split; [done|]. by exists c3, c4, c5, c6, c7.
Qed.

(** ** NewCore: what each part leaves of the Core *)

Lemma config_kept_same (c c' : core) : config c' = config c -> config_kept c c'.
Proof. unfold config_kept. intros ->. by destruct (config c). Qed.

Lemma config_kept_trans (c1 c2 c3 : core) :
  config_kept c1 c2 -> config_kept c2 c3 -> config_kept c1 c3.
Proof.
  unfold config_kept.
  destruct (config c1), (config c2), (config c3); try done.
  intros (-> & -> & -> & -> & ->) (-> & -> & -> & -> & ->). done.
Qed.

Lemma defaults_frame (c : core) :
  let c2 := default_logger (default_ctx c) in
  c2 = set_logger (set_ctx c (ctx c2)) (logger c2) /\
  ctx c2 = Some (default context_Background (ctx c)) /\
  logger c2 = Some (default logger_DefaultLogger (logger c)).
Proof.
  unfold default_logger, default_ctx.
  destruct c as [cx lg ? ? ? ? ? ? ? ? ? ? ?]; cbn [ctx logger].
  destruct cx; cbn [logger set_ctx]; destruct lg; done.
Qed.

Lemma cs_stage_frame (c c' : core) :
  cs_stage c c' ->
  c' = set_cs (set_config c (config c')) (cs c') /\
  config_kept c c' /\
  is_Some (cs c') /\
  (forall s, cs c = Some s -> cs c' = Some s).
Proof.
  intros [[Hsome ->]|(cfg & suite & Hcs & Hcfg & _ & ->)].
  - split; [by destruct c|]. split; [by apply config_kept_same|]. done.
  - cbn [config cs set_cs set_config]. split; [done|]. split; [|split].
    + unfold config_kept. cbn [config set_cs set_config]. rewrite Hcfg.
      by destruct (decide _).
    + by eexists.
    + intros s Hs. congruence.
Qed.

Lemma identity_stage_frame (raw : option Identity) (c c' : core) :
  identity_stage raw c c' -> c' = set_identity c (identity c').
Proof. by intros (id & _ & ->). Qed.

Lemma peerPool_stage_frame (c c' : core) :
  peerPool_stage c c' ->
  c' = set_peerPool c (peerPool c') /\
  is_Some (peerPool c') /\
  (forall p, peerPool c = Some p -> peerPool c' = Some p).
Proof.
  intros [[Hsome ->]|(Hnone & _ & ->)].
  - split; [by destruct c | done].
  - cbn [peerPool set_peerPool]. split; [done|]. split; [by eexists | congruence].
Qed.

Lemma discovery_stage_frame (c c' : core) :
  discovery_stage c c' ->
  c' = set_discoveryProvider (set_config c (config c')) (discoveryProvider c') /\
  config_kept c c' /\
  (forall d, discoveryProvider c = Some d -> discoveryProvider c' = Some d) /\
  (is_Some (config c) -> is_Some (discoveryProvider c')) /\
  (config c = None -> discoveryProvider c' = discoveryProvider c).
Proof.
  intros [[Hwhy ->]|(Hnone & cfg & dp & Hcfg & Hcase)].
  - split; [by destruct c|]. split; [by apply config_kept_same|]. split; [done|].
    split; [|done]. intros [cfg Hcfg]. destruct Hwhy as [?|?]; [done | congruence].
  - cbv zeta in Hcase.
    destruct Hcase as [(_ & _ & ->)|(_ & _ & connection & tls & _ & ->)];
      cbn [config discoveryProvider set_discoveryProvider set_config].
    + split; [by destruct c|]. split; [by apply config_kept_same|].
      split; [congruence|]. split; [by eexists | congruence].
    + split; [done|]. split; [|split; [congruence|split; [by eexists | congruence]]].
      unfold config_kept. cbn [config set_discoveryProvider set_config].
      by rewrite Hcfg.
Qed.

Lemma orderer_stage_frame (c c' : core) :
  orderer_stage c c' ->
  c' = set_orderer c (orderer c') /\
  (forall o, orderer c = Some o -> orderer c' = Some o) /\
  (config c = None -> orderer c' = orderer c) /\
  (forall cfg, orderer c = None -> config c = Some cfg ->
     (Config_Orderers cfg = [] -> orderer c' = None) /\
     (Config_Orderers cfg <> [] ->
      exists (conn : ClientConn) (o : Orderer),
        util_NewGRPCConnectionFromConfigs (ctx c) (logger c) (Config_Orderers cfg)
        = Ok conn /\
        orderer_NewFromGRPC (ctx c) (Some conn) = Ok o /\
        orderer c' = Some o)).
Proof.
  intros [[Hwhy ->]|(Hnone & cfg & conn & o & Hcfg & Hne & Hconn & Ho & ->)].
  - split; [by destruct c|]. split; [done|]. split; [done|].
    intros cfg Hord Hcfg. split; [done|]. intros Hne.
    destruct Hwhy as [[o Ho]|[Hno|(cfg' & Hcfg' & Hnil)]]; congruence.
  - cbn [orderer set_orderer]. split; [done|]. split; [congruence|].
    split; [congruence|]. intros cfg' _ Hcfg'. assert (cfg' = cfg) as -> by congruence.
    split; [done|]. intros _. by exists conn, o.
Qed.

Lemma fetcher_frame (c : core) :
  default_fetcher c = set_fetcher c (fetcher (default_fetcher c)) /\
  fetcher (default_fetcher c) = Some (default fetcher_NewLocal (fetcher c)).
Proof.
  unfold default_fetcher. destruct c as [? ? ? ? ? ? ? ? ? ? ? f ?]; cbn [fetcher].
  by destruct f.
Qed.

(** The Cores of a construction, one after the other: what enters each
    part is what the options left, and what leaves it is what [NewCore]
    returns. *)
Lemma construction_chain (raw : option Identity) (c1 c : core) :
  construction raw c1 c ->
  exists c3 c4 c5 c6 c7 : core,
    let c2 := default_logger (default_ctx c1) in
    (cs_stage c2 c3 /\ identity_stage raw c3 c4 /\ peerPool_stage c4 c5 /\
     discovery_stage c5 c6 /\ orderer_stage c6 c7) /\
    untouched c1 c /\
    (ctx c = ctx c2 /\ logger c = logger c2 /\
     ctx c4 = ctx c2 /\ logger c4 = logger c2 /\
     ctx c6 = ctx c2 /\ logger c6 = logger c2) /\
    (cs c2 = cs c1 /\ cs c = cs c3) /\
    (config c2 = config c1 /\ config c5 = config c3 /\ config c = config c6) /\
    identity c = identity c4 /\
    (peerPool c4 = peerPool c1 /\ peerPool c = peerPool c5) /\
    (discoveryProvider c5 = discoveryProvider c1 /\
     discoveryProvider c = discoveryProvider c6) /\
    (orderer c6 = orderer c1 /\ orderer c = orderer c7) /\
    (fetcher c7 = fetcher c1 /\
     fetcher c = Some (default fetcher_NewLocal (fetcher c7))).
Proof.
  intros (c3 & c4 & c5 & c6 & c7 & Hcs & Hid & Hpool & Hdisc & Hord & ->).
  exists c3, c4, c5, c6, c7. cbv zeta.
  destruct (defaults_frame c1) as (F2 & _ & _). cbv zeta in F2.
  destruct (cs_stage_frame _ _ Hcs) as (F3 & _).
  pose proof (identity_stage_frame _ _ _ Hid) as F4.
  destruct (peerPool_stage_frame _ _ Hpool) as (F5 & _).
  destruct (discovery_stage_frame _ _ Hdisc) as (F6 & _).
  destruct (orderer_stage_frame _ _ Hord) as (F7 & _).
  destruct (fetcher_frame c7) as (F8 & S8).
  split; [done|]. split; [|split; [|split; [|split; [|split; [|split; [|split; [|split]]]]]]].
  - unfold untouched.
    repeat split;
      [fields_of mspId F2 F3 F4 F5 F6 F7 F8 | fields_of fabricV2 F2 F3 F4 F5 F6 F7 F8
       | fields_of channels F2 F3 F4 F5 F6 F7 F8
       | fields_of chaincodes F2 F3 F4 F5 F6 F7 F8]; congruence.
  - repeat split;
      [fields_of ctx F2 F3 F4 F5 F6 F7 F8 | fields_of logger F2 F3 F4 F5 F6 F7 F8
       | fields_of ctx F2 F3 F4 F5 F6 F7 F8 | fields_of logger F2 F3 F4 F5 F6 F7 F8
       | fields_of ctx F2 F3 F4 F5 F6 F7 F8 | fields_of logger F2 F3 F4 F5 F6 F7 F8];
      congruence.
  - split; fields_of cs F2 F3 F4 F5 F6 F7 F8; congruence.
  - repeat split; fields_of config F2 F3 F4 F5 F6 F7 F8; congruence.
  - fields_of identity F2 F3 F4 F5 F6 F7 F8; congruence.
  - split; fields_of peerPool F2 F3 F4 F5 F6 F7 F8; congruence.
  - split; fields_of discoveryProvider F2 F3 F4 F5 F6 F7 F8; congruence.
  - split; fields_of orderer F2 F3 F4 F5 F6 F7 F8; congruence.
  - split; [fields_of fetcher F2 F3 F4 F5 F6 F7 F8; congruence | exact S8].
Qed.

(** ** NewCore: the Core it returns *)

(** X7. A Core that [NewCore] returns comes without an error and is never
    half made: context, logger, crypto suite, signing identity, peer pool
    and fetcher are all there. *)
Theorem NewCore_initialised (mspId : string) (raw : option Identity)
    (opts : list CoreOpt) (w w' : World) (c : core) (e : option error) :
  NewCore mspId raw opts w = Returned (Some c, e) w' ->
  e = None /\ initialised c.
Proof.
  intros Hrun. destruct (NewCore_returned _ _ _ _ _ _ _ Hrun) as (-> & c1 & _ & Hcon).
  split; [done|].
  destruct (construction_chain _ _ _ Hcon)
    as (c3 & c4 & c5 & c6 & c7 & (Hcs & Hid & Hpool & _ & _) & _
        & (Hctx & Hlog & _) & (_ & Hsuite) & _ & Hident & (_ & Hpp) & _ & _ & (_ & Hf)).
  cbv zeta in *.
  destruct (defaults_frame c1) as (_ & Hctx2 & Hlog2). cbv zeta in Hctx2, Hlog2.
  destruct (cs_stage_frame _ _ Hcs) as (_ & _ & [s Hs] & _).
  destruct Hid as (id & _ & Hc4).
  destruct (peerPool_stage_frame _ _ Hpool) as (_ & [p Hp] & _).
  unfold initialised. rewrite Hctx, Hlog, Hsuite, Hident, Hpp, Hf, Hctx2, Hlog2, Hs, Hp, Hc4.
  cbn [identity set_identity]. by repeat split; eexists.
Qed.

(** X8. What an option has set is not overwritten. When the options leave
    a context, logger, crypto suite, peer pool, discovery provider, orderer
    or fetcher, the Core that [NewCore] returns has that very one; and
    organisation, protocol flag and the two caches are as the options left
    them. *)
Theorem NewCore_options_take_precedence (mspId : string) (raw : option Identity)
    (opts : list CoreOpt) (w w' : World) (c1 c : core) (e : option error) :
  options_applied_in_order opts (new_core mspId) c1 ->
  NewCore mspId raw opts w = Returned (Some c, e) w' ->
  untouched c1 c /\
  (forall x, ctx c1 = Some x -> ctx c = Some x) /\
  (forall x, logger c1 = Some x -> logger c = Some x) /\
  (forall x, cs c1 = Some x -> cs c = Some x) /\
  (forall x, peerPool c1 = Some x -> peerPool c = Some x) /\
  (forall x, discoveryProvider c1 = Some x -> discoveryProvider c = Some x) /\
  (forall x, orderer c1 = Some x -> orderer c = Some x) /\
  (forall x, fetcher c1 = Some x -> fetcher c = Some x).
Proof.
  intros Hopts Hrun.
  destruct (NewCore_returned _ _ _ _ _ _ _ Hrun) as (_ & c1' & Hopts' & Hcon).
  rewrite <- (options_applied_once _ _ _ _ Hopts Hopts') in Hcon. clear c1' Hopts'.
  destruct (construction_chain _ _ _ Hcon)
    as (c3 & c4 & c5 & c6 & c7 & (Hcs & Hid & Hpool & Hdisc & Hord) & Hrest
        & (Hctx & Hlog & _) & (Hcs2 & Hsuite) & _ & _ & (Hp4 & Hpp) & (Hd5 & Hdp)
        & (Ho6 & Hordr) & (Hf7 & Hf)).
  cbv zeta in *.
  destruct (defaults_frame c1) as (_ & Hctx2 & Hlog2). cbv zeta in Hctx2, Hlog2.
  destruct (cs_stage_frame _ _ Hcs) as (_ & _ & _ & Kcs).
  destruct (peerPool_stage_frame _ _ Hpool) as (_ & _ & Kpool).
  destruct (discovery_stage_frame _ _ Hdisc) as (_ & _ & Kdisc & _).
  destruct (orderer_stage_frame _ _ Hord) as (_ & Kord & _).
  split; [exact Hrest|]. repeat split; intros x Hx.
  - by rewrite Hctx, Hctx2, Hx.
  - by rewrite Hlog, Hlog2, Hx.
  - rewrite Hsuite. apply Kcs. congruence.
  - rewrite Hpp. apply Kpool. congruence.
  - rewrite Hdp. apply Kdisc. congruence.
  - rewrite Hordr. apply Kord. congruence.
  - by rewrite Hf, Hf7, Hx.
Qed.

(** X9. The signing identity of a Core that [NewCore] returns is the one
    the identity passed in gives for the crypto suite of that Core; there
    is no Core without an identity passed in. *)
Theorem NewCore_identity_of_suite (mspId : string) (raw : option Identity)
    (opts : list CoreOpt) (w w' : World) (c : core) (e : option error) :
  NewCore mspId raw opts w = Returned (Some c, e) w' ->
  exists id : Identity,
    raw = Some id /\
    core_CurrentIdentity c
    = Some (Identity_GetSigningIdentity id (core_CryptoSuite c)).
Proof.
  intros Hrun. destruct (NewCore_returned _ _ _ _ _ _ _ Hrun) as (_ & c1 & _ & Hcon).
  destruct (construction_chain _ _ _ Hcon)
    as (c3 & c4 & c5 & c6 & c7 & (_ & Hid & _) & _ & _ & (_ & Hsuite) & _ & Hident & _).
  destruct Hid as (id & Hraw & Hc4). exists id. split; [done|].
  unfold core_CurrentIdentity, core_CryptoSuite. rewrite Hident, Hsuite, Hc4. done.
Qed.

(** X10. The default orderer comes from the configuration as a whole. When
    the options leave no orderer but a configuration, a Core that [NewCore]
    returns has no default orderer if the configuration lists no ordering
    endpoint, and otherwise the orderer constructed from one connection
    built over all the endpoints listed. *)
Theorem NewCore_default_orderer (mspId : string) (raw : option Identity)
    (opts : list CoreOpt) (w w' : World) (c1 c : core) (e : option error)
    (cfg : Config) :
  options_applied_in_order opts (new_core mspId) c1 ->
  orderer c1 = None ->
  config c1 = Some cfg ->
  NewCore mspId raw opts w = Returned (Some c, e) w' ->
  (Config_Orderers cfg = [] -> orderer c = None) /\
  (Config_Orderers cfg <> [] ->
   exists (conn : ClientConn) (o : Orderer),
     util_NewGRPCConnectionFromConfigs (ctx c) (logger c) (Config_Orderers cfg) = Ok conn /\
     orderer_NewFromGRPC (ctx c) (Some conn) = Ok o /\
     orderer c = Some o).
Proof.
  intros Hopts Hnone Hcfg Hrun.
  destruct (NewCore_returned _ _ _ _ _ _ _ Hrun) as (_ & c1' & Hopts' & Hcon).
  rewrite <- (options_applied_once _ _ _ _ Hopts Hopts') in Hcon. clear c1' Hopts'.
  destruct (construction_chain _ _ _ Hcon)
    as (c3 & c4 & c5 & c6 & c7 & (Hcs & _ & _ & Hdisc & Hord) & _
        & (Hctx & Hlog & _ & _ & Hctx6 & Hlog6) & _ & (Hcfg2 & Hcfg5 & _) & _ & _ & _
        & (Ho6 & Hordr) & _).
  cbv zeta in *.
  destruct (cs_stage_frame _ _ Hcs) as (_ & K3 & _).
  destruct (discovery_stage_frame _ _ Hdisc) as (_ & K6 & _).
  destruct (orderer_stage_frame _ _ Hord) as (_ & _ & _ & Kord).
  assert (Hcfg6 : exists cfg6, config c6 = Some cfg6 /\
                               Config_Orderers cfg6 = Config_Orderers cfg).
  { unfold config_kept in K3, K6. rewrite Hcfg2, Hcfg in K3. rewrite Hcfg5 in K6.
    destruct (config c3) as [cfg3|]; [|done]. destruct (config c6) as [cfg6|]; [|done].
    exists cfg6. split; [done|]. destruct K3 as (<- & _), K6 as (-> & _). done. }
  destruct Hcfg6 as (cfg6 & Hc6 & Hsame).
  destruct (Kord cfg6 (eq_trans Ho6 Hnone) Hc6) as [Hempty Hfull].
  rewrite Hordr, Hctx, Hlog, <- Hctx6, <- Hlog6, <- Hsame. by split.
Qed.


(** ** NewCore: what it refuses *)

Lemma defaults_keep (c : core) :
  let c2 := default_logger (default_ctx c) in
  peerPool c2 = peerPool c /\ discoveryProvider c2 = discoveryProvider c /\
  orderer c2 = orderer c /\ fetcher c2 = fetcher c /\ identity c2 = identity c.
Proof.
  cbv zeta. destruct (defaults_frame c) as (F2 & _). cbv zeta in F2.
  repeat split;
    [field_of peerPool F2 | field_of discoveryProvider F2 | field_of orderer F2
     | field_of fetcher F2 | field_of identity F2]; done.
Qed.

(** X12. Without a configuration [NewCore] needs a crypto suite and a peer
    pool from the options. With no configuration and no crypto suite it
    returns the empty-configuration error whatever the identity, even a
    missing one; with no configuration and no peer pool it returns that
    error for every identity passed in. *)
Theorem NewCore_empty_config (mspId : string) (raw : option Identity)
    (opts : list CoreOpt) (w : World) (c1 : core) :
  options_applied_in_order opts (new_core mspId) c1 ->
  config c1 = None ->
  (cs c1 = None ->
   exists w' : World,
     NewCore mspId raw opts w = Returned (None, Some api_ErrEmptyConfig) w') /\
  (is_Some raw -> peerPool c1 = None ->
   exists w' : World,
     NewCore mspId raw opts w = Returned (None, Some api_ErrEmptyConfig) w').
Proof.
  intros Hopts Hcfg.
  destruct (logger_defaults c1) as [lg Hlg].
  assert (Hfirst : cs c1 = None ->
            exists w', NewCore mspId raw opts w
                       = Returned (None, Some api_ErrEmptyConfig) w').
  { intros Hcs. unfold NewCore, before_discovery. cbv beta iota zeta delta [run bind].
    rewrite (apply_options_all _ _ _ _ Hopts). cbv beta iota.
    unfold init_cs. rewrite cs_defaults, Hcs, config_defaults, Hcfg, Hlg.
    flow_simpl. by eexists. }
  split; [exact Hfirst|]. intros [id ->] Hpool.
  destruct (cs c1) as [suite|] eqn:Hcs; [|by apply Hfirst].
  destruct (defaults_keep c1) as (Hpool2 & _). cbv zeta in Hpool2.
  unfold NewCore, before_discovery. cbv beta iota zeta delta [run bind].
  rewrite (apply_options_all _ _ _ _ Hopts). cbv beta iota.
  unfold init_cs, init_identity, init_peerPool. rewrite cs_defaults, Hcs.
  flow_simpl. cbn [peerPool logger config set_identity].
  rewrite Hpool2, Hpool, Hlg, config_defaults, Hcfg. flow_simpl. by eexists.
Qed.


(** X14. A discovery type that is neither of the two known ones is refused.
    When the parts before discovery have run and leave no provider but a
    configuration with such a type, [NewCore] returns no Core and an error
    whose text names the type asked for and the two that there are. *)
Theorem NewCore_unknown_discovery_type (mspId : string) (raw : option Identity)
    (opts : list CoreOpt) (w w1 : World) (c : core) (err : option error)
    (cfg : Config) :
  before_discovery mspId raw opts w = Continue (c, err) w1 ->
  discoveryProvider c = None ->
  config c = Some cfg ->
  Discovery_Type (Config_Discovery cfg) <> discovery_LocalConfigServiceDiscoveryType ->
  Discovery_Type (Config_Discovery cfg) <> discovery_GossipServiceDiscoveryType ->
  (exists w' : World,
     NewCore mspId raw opts w
     = Returned (None, Some (unknown_discovery_type
                               (Discovery_Type (Config_Discovery cfg)))) w') /\
  Error (unknown_discovery_type (Discovery_Type (Config_Discovery cfg)))
  = "unknown discovery type=" +:+ Discovery_Type (Config_Discovery cfg)
    +:+ ". available: " +:+ discovery_LocalConfigServiceDiscoveryType
    +:+ ", " +:+ discovery_GossipServiceDiscoveryType.
Proof.
  intros Hbefore Hdp Hcfg Hlocal Hgossip. split; [|reflexivity].
  pose proof (post_before_discovery mspId raw opts w) as Hpost.
  rewrite Hbefore in Hpost. cbn [fst snd] in Hpost. destruct Hpost as [[lg Hlg] ->].
  unfold NewCore. cbv beta iota zeta delta [run bind]. rewrite Hbefore.
  unfold init_discoveryProvider. rewrite Hdp, Hcfg, Hlg. flow_simpl.
  destruct (decide _) as [?|_]; [done|]. destruct (decide _) as [?|_]; [done|].
  by eexists.
Qed.


(** ** NewCore: how it can end *)

Lemma ends_ret {A} (X : NewCoreResult -> Prop) (Q : Prop) (a : A) :
  stage_ends X Q (ret a).
Proof. by intros w. Qed.

Lemma ends_exit {A} (X : NewCoreResult -> Prop) (Q : Prop) (r : NewCoreResult) :
  X r -> stage_ends (A := A) X Q (exit r).
Proof. by intros Hr w. Qed.

Lemma ends_emit (X : NewCoreResult -> Prop) (Q : Prop) (e : Event) :
  stage_ends X Q (emit e).
Proof. by intros w. Qed.

Lemma ends_deref {A} (X : NewCoreResult -> Prop) (Q : Prop) (p : option A) :
  (p = None -> Q) -> stage_ends X Q (deref p).
Proof. intros Hp w. destruct p; [done | by apply Hp]. Qed.

Lemma ends_then {A B} (X : NewCoreResult -> Prop) (Q : Prop)
    (m : M NewCoreResult A) (k : A -> M NewCoreResult B) :
  stage_ends X Q m -> (forall a, stage_ends X Q (k a)) -> stage_ends X Q (bind m k).
Proof.
  intros Hm Hk w. unfold bind. specialize (Hm w).
  destruct (m w) as [a w1|r w1|w1]; [apply Hk | done | done].
Qed.

Lemma ends_bind {A B} (R : A -> Prop) (X : NewCoreResult -> Prop) (Q : Prop)
    (m : M NewCoreResult A) (k : A -> M NewCoreResult B) :
  stage_post R m -> stage_ends X Q m -> (forall a, R a -> stage_ends X Q (k a)) ->
  stage_ends X Q (bind m k).
Proof.
  intros Hpost Hm Hk w. unfold bind. specialize (Hm w). specialize (Hpost w).
  destruct (m w) as [a w1|r w1|w1]; [by apply Hk | done | done].
Qed.

Lemma ends_weaken {A} (X X' : NewCoreResult -> Prop) (Q : Prop)
    (m : M NewCoreResult A) :
  (forall r, X r -> X' r) -> stage_ends X Q m -> stage_ends X' Q m.
Proof.
  intros HX Hm w. specialize (Hm w). destruct (m w); [done | by apply HX | done].
Qed.

Lemma ends_for_each {A} (X : NewCoreResult -> Prop) (Q : Prop) (l : list A)
    (body : A -> M NewCoreResult unit) :
  (forall x, stage_ends X Q (body x)) -> stage_ends X Q (for_each l body).
Proof.
  intros Hbody. induction l as [|x l IH]; [apply ends_ret|].
  cbn [for_each]. apply ends_then; [apply Hbody | intros _; exact IH].
Qed.

Lemma loud_error (e : error) : loud (None, Some e).
Proof. split; [done | by eexists]. Qed.

Lemma ends_add_peer (Q : Prop) (c : core) (msp : string) (peerCfg : ConnectionConfig) :
  is_Some (peerPool c) -> stage_ends loud Q (add_peer c msp peerCfg).
Proof.
  intros [pool Hpool]. unfold add_peer, errors_New. rewrite Hpool.
  destruct (peer_New peerCfg (logger c)) as [p|e]; [|apply ends_exit, loud_error].
  apply ends_then; [by apply ends_deref|]. intros pool'.
  apply ends_then; [apply ends_emit|]. intros _.
  destruct (PeerPool_Add _ _ _ _); [apply ends_exit, loud_error | apply ends_ret].
Qed.

Lemma ends_apply_options (Q : Prop) (opts : list CoreOpt) (c : core)
    (err : option error) :
  stage_ends loud Q (apply_options opts c err).
Proof.
  revert c err. induction opts as [|first opts IH]; intros c err; [apply ends_ret|].
  cbn [apply_options]. destruct (first c) as [c' [e|]];
    [apply ends_exit, loud_error | apply IH].
Qed.

Lemma ends_init_cs (Q : Prop) (c : core) (err : option error) :
  is_Some (logger c) -> stage_ends loud Q (init_cs c err).
Proof.
  intros [lg Hlg]. unfold init_cs. rewrite Hlg.
  destruct (cs c); [apply ends_ret|].
  apply ends_then; [by apply ends_deref|]. intros lg'.
  apply ends_then; [apply ends_emit|]. intros _.
  destruct (config c) as [cfg|]; [|apply ends_exit, loud_error].
  cbv zeta. destruct (crypto_GetSuite _ _); [apply ends_ret | apply ends_exit, loud_error].
Qed.

Lemma ends_init_identity (Q : Prop) (c : core) (raw : option Identity) :
  stage_ends loud Q (init_identity c raw).
Proof.
  unfold init_identity, errors_New.
  destruct raw; [apply ends_ret | apply ends_exit, loud_error].
Qed.

Lemma ends_init_peerPool (Q : Prop) (c : core) :
  is_Some (logger c) -> stage_ends loud Q (init_peerPool c).
Proof.
  intros [lg Hlg]. unfold init_peerPool. rewrite Hlg.
  destruct (peerPool c); [apply ends_ret|].
  apply ends_then; [by apply ends_deref|]. intros lg'.
  apply ends_then; [apply ends_emit|]. intros _.
  destruct (config c) as [cfg|]; [|apply ends_exit, loud_error].
  cbv zeta. apply ends_then; [|intros _; apply ends_ret].
  apply ends_for_each. intros mspConfig. apply ends_for_each. intros peerConfig.
  apply ends_add_peer. by eexists.
Qed.

Lemma ends_init_orderer (Q : Prop) (c : core) :
  is_Some (logger c) -> stage_ends loud Q (init_orderer c).
Proof.
  intros [lg Hlg]. unfold init_orderer. rewrite Hlg.
  destruct (orderer c); [apply ends_ret|].
  destruct (config c) as [cfg|]; [|apply ends_ret].
  apply ends_then; [by apply ends_deref|]. intros lg'.
  apply ends_then; [apply ends_emit|]. intros _.
  destruct (0 <? length (Config_Orderers cfg))%nat; [|apply ends_ret].
  unfold call_NewGRPCConnectionFromConfigs, call_NewFromGRPC.
  apply ends_then; [apply ends_then; [apply ends_emit | intros _; apply ends_ret]|].
  intros [ordConn|e]; [|apply ends_exit, loud_error].
  apply ends_then; [apply ends_then; [apply ends_emit | intros _; apply ends_ret]|].
  intros [o|e]; [apply ends_ret | apply ends_exit, loud_error].
Qed.

(** the one [return] of [NewCore] that may come without an error: line 220 *)
Lemma ends_init_gossip (Q : Prop) (c : core) (err : option error) (cfg : Config)
    (tlsMapper : TLSCertsMapper) :
  is_Some (identity c) -> is_Some (peerPool c) -> (tls_mapper_total \/ Q) ->
  stage_ends
    (fun r => loud r \/
              (r = (None, None) /\ err = None /\
               Discovery_Connection (Config_Discovery cfg) = None))
    Q (init_gossip c err cfg tlsMapper).
Proof.
  intros [signer Hsigner] Hpool Htls. unfold init_gossip. rewrite Hsigner.
  destruct (Discovery_Connection (Config_Discovery cfg)) as [connection|].
  2: { apply ends_exit. destruct err as [e|]; [left; apply loud_error | by right]. }
  apply ends_then; [by apply ends_deref|]. intros signer'. cbv zeta.
  destruct (SigningIdentity_Serialize signer') as [clientIdentity|e];
    [|apply ends_exit; left; apply loud_error].
  apply ends_then.
  { apply ends_deref. intros Hnil. destruct Htls as [Htotal|HQ]; [|exact HQ].
    destruct (Htotal tlsMapper (Host connection)) as [tls Htls]. congruence. }
  intros tls.
  destruct (discovery_NewGossipDiscoveryProvider _ _ _ _ _ _) as [dp|e];
    [|apply ends_exit; left; apply loud_error].
  destruct (DiscoveryProvider_LocalPeers _ _) as [lDiscoverer|e];
    [|apply ends_exit; left; apply loud_error].
  apply ends_then; [|intros _; apply ends_ret].
  apply ends_for_each. intros lp. apply ends_for_each. intros lpAddresses.
  eapply ends_weaken; [|by apply ends_add_peer]. intros r Hr. by left.
Qed.

Lemma ends_init_discoveryProvider (Q : Prop) (c : core) (err : option error) :
  is_Some (logger c) -> is_Some (identity c) -> is_Some (peerPool c) ->
  (tls_mapper_total \/ Q) ->
  stage_ends
    (fun r => loud r \/
              (r = (None, None) /\ err = None /\ discoveryProvider c = None /\
               exists cfg : Config,
                 config c = Some cfg /\
                 Discovery_Type (Config_Discovery cfg)
                 = discovery_GossipServiceDiscoveryType /\
                 Discovery_Type (Config_Discovery cfg)
                 <> discovery_LocalConfigServiceDiscoveryType /\
                 Discovery_Connection (Config_Discovery cfg) = None))
    Q (init_discoveryProvider c err).
Proof.
  intros [lg Hlg] Hid Hpool Htls. unfold init_discoveryProvider. rewrite Hlg.
  destruct (discoveryProvider c) eqn:Hdp; [apply ends_ret|].
  destruct (config c) as [cfg|] eqn:Hcfg; [|apply ends_ret].
  apply ends_then; [by apply ends_deref|]. intros lg'.
  apply ends_then; [apply ends_emit|]. intros _. cbv zeta.
  destruct (decide _) as [Hlocal|Hlocal].
  - destruct (discovery_NewLocalConfigProvider _ _);
      [apply ends_ret | apply ends_exit; left; apply loud_error].
  - destruct (decide _) as [Hgossip|_]; [|apply ends_exit; left; apply loud_error].
    eapply ends_weaken; [|by apply ends_init_gossip].
    intros r [Hloud|(-> & -> & Hconn)]; [by left|]. right.
    do 3 (split; [done|]). by exists cfg.
Qed.

(** the parts of lines 145-205 leave what the later parts use *)
Lemma post_before_discovery_wired (mspId : string) (raw : option Identity)
    (opts : list CoreOpt) :
  stage_post (fun ce => is_Some (logger ce.1) /\ is_Some (identity ce.1) /\
                        is_Some (peerPool ce.1) /\ ce.2 = None)
             (before_discovery mspId raw opts).
Proof.
  intros w. pose proof (post_before_discovery mspId raw opts w) as Hpost.
  destruct (before_discovery mspId raw opts w) as [[c5 err5] w5|r w5|w5] eqn:Hbefore;
    [|done|done].
  cbn [fst snd] in *. destruct Hpost as [Hlg ->].
  unfold before_discovery in Hbefore. cbv zeta in Hbefore.
  apply bind_continue_inv in Hbefore as ([c1 err1] & w1 & _ & Hbefore).
  cbv beta iota in Hbefore.
  apply bind_continue_inv in Hbefore as ([c3 err3] & w3 & _ & Hbefore).
  cbv beta iota in Hbefore.
  apply bind_continue_inv in Hbefore as (c4 & w4 & Hid & Hbefore).
  apply (post_continue _ _ _ _ _ (post_identity_stage _ _)) in Hid.
  apply bind_continue_inv in Hbefore as (c5' & w5' & Hpool & Hbefore).
  apply (post_continue _ _ _ _ _ (post_peerPool_stage _)) in Hpool.
  cbv beta iota delta [ret] in Hbefore. injection Hbefore as -> _ _.
  destruct (peerPool_stage_frame _ _ Hpool) as (F5 & Hsome & _).
  destruct Hid as (id & _ & ->). field_of identity F5.
  repeat split; [done | rewrite Hfield; by eexists | done].
Qed.

Lemma ends_before_discovery (Q : Prop) (mspId : string) (raw : option Identity)
    (opts : list CoreOpt) :
  stage_ends loud Q (before_discovery mspId raw opts).
Proof.
  unfold before_discovery. cbv zeta.
  apply ends_then; [apply ends_apply_options|]. intros [c1 err1].
  pose proof (logger_defaults c1) as Hlg.
  set (c2 := default_logger (default_ctx c1)) in *.
  eapply ends_bind; [apply post_cs_stage | by apply ends_init_cs |].
  intros [c3 err3] Hcs. cbn [fst] in Hcs.
  destruct (cs_stage_frame _ _ Hcs) as (F3 & _). field_of logger F3.
  eapply ends_bind; [apply post_identity_stage | apply ends_init_identity |].
  intros c4 Hid. pose proof (identity_stage_frame _ _ _ Hid) as F4. field_of logger F4.
  apply ends_then; [apply ends_init_peerPool; congruence | intros c5; apply ends_ret].
Qed.



(** X17. [NewCore] returns neither a Core nor an error in one case only:
    the parts before discovery have run, no provider is set, and the
    configuration asks for gossip discovery without a bootstrap
    connection. Every other [return] without a Core carries an error. *)
Theorem NewCore_nil_nil_only_gossip (mspId : string) (raw : option Identity)
    (opts : list CoreOpt) (w : World) :
  discovery_GossipServiceDiscoveryType <> discovery_LocalConfigServiceDiscoveryType ->
  ((exists w' : World, NewCore mspId raw opts w = Returned (None, None) w')
   <->
   (exists (c : core) (err : option error) (w1 : World) (cfg : Config),
      before_discovery mspId raw opts w = Continue (c, err) w1 /\
      discoveryProvider c = None /\
      config c = Some cfg /\
      Discovery_Type (Config_Discovery cfg) = discovery_GossipServiceDiscoveryType /\
      Discovery_Connection (Config_Discovery cfg) = None)).
Proof.
  intros Hdiff. split.
  - intros [w' Hrun]. unfold NewCore, run, bind in Hrun.
    pose proof (post_before_discovery_wired mspId raw opts w) as Hwired.
    pose proof (ends_before_discovery True mspId raw opts w) as Hends.
    destruct (before_discovery mspId raw opts w) as [[c5 err5] w5|r w5|w5] eqn:Hbefore;
      [| |done].
    2: { injection Hrun as -> _. by destruct Hends as [_ [e He]]. }
    cbn [fst snd] in Hwired. destruct Hwired as (Hlg & Hid & Hpool & ->).
    pose proof (post_discovery_stage c5 None w5) as Hpost.
    pose proof (ends_init_discoveryProvider True c5 None Hlg Hid Hpool
                  (or_intror I) w5) as Hd.
    destruct (init_discoveryProvider c5 None w5) as [[c6 err6] w6|r w6|w6]; [| |done].
    + cbn [fst] in Hpost. destruct (discovery_stage_frame _ _ Hpost) as (F6 & _).
      field_of logger F6.
      assert (Hlg6 : is_Some (logger c6)) by congruence.
      pose proof (ends_init_orderer True c6 Hlg6 w6) as Ho.
      destruct (init_orderer c6 w6) as [c7 w7|r w7|w7]; [done| |done].
      injection Hrun as -> _. by destruct Ho as [_ [e He]].
    + injection Hrun as -> _.
      destruct Hd as [[_ [e He]]|(_ & _ & Hdp & cfg & Hcfg & Htype & _ & Hconn)]; [done|].
      by exists c5, None, w5, cfg.
  - intros (c & err & w1 & cfg & Hbefore & Hdp & Hcfg & Htype & Hconn).
    by apply (NewCore_gossip_without_connection _ _ _ _ w1 c err cfg).
Qed.

(** ** NewCore: the peers it adds to the pool *)

Lemma for_each_app {A} (l1 l2 : list A) (body : A -> M NewCoreResult unit) (w : World) :
  for_each (l1 ++ l2) body w = bind (for_each l1 body) (fun _ => for_each l2 body) w.
Proof.
  revert w. induction l1 as [|x l1 IH]; intros w; [done|].
  cbn [app for_each]. unfold bind in *.
  destruct (body x w) as [[] w1|r w1|w1]; [apply IH | done | done].
Qed.

(** a loop in a loop is one loop over the pairs *)
Lemma for_each_nested {A B C} (l : list A) (f : A -> list B) (g : A -> string)
    (h : B -> C) (body : string -> C -> M NewCoreResult unit) (w : World) :
  for_each l (fun x => for_each (f x) (fun y => body (g x) (h y))) w
  = for_each (concat (map (fun x => map (fun y => (g x, h y)) (f x)) l))
             (fun p => body p.1 p.2) w.
Proof.
  revert w. induction l as [|x l IH]; intros w; [done|].
  cbn [map concat for_each]. rewrite for_each_app. unfold bind.
  assert (Hinner : forall w,
            for_each (f x) (fun y => body (g x) (h y)) w
            = for_each (map (fun y => (g x, h y)) (f x)) (fun p => body p.1 p.2) w).
  { induction (f x) as [|y l' IH']; intros w'; [done|].
    cbn [map for_each fst snd]. unfold bind.
    destruct (body (g x) (h y) w') as [[] w1|r w1|w1]; [apply IH' | done | done]. }
  rewrite Hinner.
  destruct (for_each _ _ w) as [[] w1|r w1|w1]; [apply IH | done | done].
Qed.

(** as long as peers are built and added, the loop goes on and leaves one
    registration each *)
Lemma register_all (c : core) (pool : PeerPool) (l : list (string * ConnectionConfig))
    (peers : list Peer) (w : World) :
  peerPool c = Some pool ->
  Forall2 (registers c pool) l peers ->
  for_each l (fun x => add_peer c x.1 x.2) w
  = Continue tt {| trace := trace w ++ zip_with (fun x p => EvPoolAdd x.1 p) l peers;
                   next_ref := next_ref w |}.
Proof.
  intros Hpool Hall. revert w.
  induction Hall as [|x p l peers [Hnew Hadd] _ IH]; intros w.
  - cbn [for_each zip_with]. rewrite app_nil_r. by destruct w.
  - cbn [for_each zip_with]. unfold bind, add_peer at 1. rewrite Hnew, Hpool.
    flow_simpl. rewrite Hadd. rewrite IH. cbn [trace next_ref].
    by rewrite <- app_assoc.
Qed.


(** X18. The peer pool that [NewCore] builds holds the endorsers of the
    configuration: when every one of them can be built and added, lines
    186-205 make a new pool and add one peer per endorser, organisation by
    organisation and endorser by endorser in the order of the
    configuration, each under the name of its organisation. *)
Theorem init_peerPool_registers (c : core) (w : World) (lg : Logger) (cfg : Config)
    (peers : list Peer) :
  peerPool c = None ->
  logger c = Some lg ->
  config c = Some cfg ->
  Forall2 (registers c (pool_New (ctx c) (logger c))) (endorsers_of cfg) peers ->
  init_peerPool c w
  = Continue (set_peerPool c (Some (pool_New (ctx c) (logger c))))
      {| trace := trace w
                  ++ EvLog (entry InfoLevel lg "initializing peer pool" [])
                  :: zip_with (fun x p => EvPoolAdd x.1 p) (endorsers_of cfg) peers;
         next_ref := next_ref w |}.
Proof.
  intros Hpool Hlg Hcfg Hall. unfold init_peerPool. rewrite Hpool, Hcfg.
  cbv zeta. unfold bind at 1 2 3. rewrite Hlg at 1. flow_simpl.
  rewrite (for_each_nested (Config_MSP cfg) MSP_Endorsers MSP_Name (fun y => y)
             (add_peer (set_peerPool c (Some (pool_New (ctx c) (logger c)))))).
  fold (endorsers_of cfg).
  rewrite (register_all _ (pool_New (ctx c) (logger c)) _ peers); [|done|exact Hall].
  cbn [trace next_ref]. by rewrite <- app_assoc.
Qed.


(** X20. With gossip discovery the local peers go into the pool the Core
    has, be it from an option or from the configuration. When the bootstrap
    connection is there and provider and local peers are obtained, lines
    218-267 put the TLS settings of the mapper into the connection of the
    configuration, set the provider, and add one peer per address of every
    local peer, in order, under the organisation of that peer. *)
Theorem init_gossip_registers_local_peers (c : core) (err : option error)
    (cfg : Config) (tlsMapper : TLSCertsMapper) (w : World)
    (connection : ConnectionConfig) (signer : SigningIdentity)
    (clientIdentity : list Byte.byte) (tls : TlsConfig) (dp : DiscoveryProvider)
    (lDiscoverer : LocalPeersDiscoverer) (pool : PeerPool) (peers : list Peer) :
  Discovery_Connection (Config_Discovery cfg) = Some connection ->
  identity c = Some signer ->
  SigningIdentity_Serialize signer = Ok clientIdentity ->
  TLSCertsMapper_TlsConfigForAddress tlsMapper (Host connection) = Some tls ->
  discovery_NewGossipDiscoveryProvider (ctx c) {| Host := Host connection; Tls := tls |}
    (logger c) (fun msg => SigningIdentity_Sign signer msg) clientIdentity tlsMapper
  = Ok dp ->
  DiscoveryProvider_LocalPeers dp (ctx c) = Ok lDiscoverer ->
  peerPool c = Some pool ->
  Forall2 (registers c pool) (local_peers_of (Peers lDiscoverer)) peers ->
  init_gossip c err cfg tlsMapper w
  = Continue
      (set_discoveryProvider
         (set_config c (Some (set_Discovery_Connection_Tls cfg connection tls)))
         (Some dp), err)
      {| trace := trace w
                  ++ zip_with (fun x p => EvPoolAdd x.1 p)
                       (local_peers_of (Peers lDiscoverer)) peers;
         next_ref := next_ref w |}.
Proof.
  intros Hconn Hid Hser Htls Hdp Hlocal Hpool Hall.
  unfold init_gossip. rewrite Hconn, Hid. cbv zeta. unfold bind at 1, deref at 1, ret at 1.
  rewrite Hser. unfold bind at 1. rewrite Htls. unfold deref at 1, ret at 1.
  cbn [ctx logger set_config set_discoveryProvider]. rewrite Hdp, Hlocal.
  unfold bind at 1.
  rewrite (for_each_nested (Peers lDiscoverer) HostAddresses MspID grpcCfg
             (add_peer (set_discoveryProvider
                          (set_config c (Some (set_Discovery_Connection_Tls cfg connection tls)))
                          (Some dp)))).
  fold (local_peers_of (Peers lDiscoverer)).
  by rewrite (register_all _ pool _ peers).
Qed.

(** ** Channel: the orderer cannot be constructed *)


(** ** NewCore: crypto suite and discovery as configured *)

Lemma discovery_stage_crypto (c c' : core) (cfg : Config) :
  discovery_stage c c' ->
  config c = Some cfg ->
  exists cfg', config c' = Some cfg' /\ Config_Crypto cfg' = Config_Crypto cfg.
Proof.
  intros [[_ ->]|(_ & cfg0 & dp & Hcfg0 & Hcase)] Hcfg; [by exists cfg|].
  cbv zeta in Hcase.
  destruct Hcase as [(_ & _ & ->)|(_ & _ & connection & tls & _ & ->)];
    cbn [config set_discoveryProvider set_config]; [by exists cfg|].
  eexists. split; [reflexivity|]. cbn [Config_Crypto set_Discovery_Connection_Tls].
  congruence.
Qed.

(** X22. A crypto type that is configured is the one used. When the options
    leave no crypto suite but a configuration with a crypto type that is
    not empty, a Core that [NewCore] returns has the suite looked up for
    that type with the options of the configuration, whose crypto
    configuration stays as it was; and when that lookup fails, [NewCore]
    returns its error wrapped with "failed to initialize crypto suite". *)
Theorem NewCore_configured_crypto (mspId : string) (raw : option Identity)
    (opts : list CoreOpt) (c1 : core) (cfg : Config) (w : World) :
  options_applied_in_order opts (new_core mspId) c1 ->
  cs c1 = None ->
  config c1 = Some cfg ->
  Crypto_Type (Config_Crypto cfg) <> "" ->
  (forall (c : core) (e : option error) (w' : World),
     NewCore mspId raw opts w = Returned (Some c, e) w' ->
     exists (suite : CryptoSuite) (cfg' : Config),
       crypto_GetSuite (Crypto_Type (Config_Crypto cfg))
                       (Crypto_Options (Config_Crypto cfg)) = Ok suite /\
       cs c = Some suite /\
       config c = Some cfg' /\ Config_Crypto cfg' = Config_Crypto cfg) /\
  (forall e : error,
     crypto_GetSuite (Crypto_Type (Config_Crypto cfg))
                     (Crypto_Options (Config_Crypto cfg)) = Err e ->
     exists w' : World,
       NewCore mspId raw opts w
       = Returned (None, Some (withMessage e "failed to initialize crypto suite")) w').
Proof.
  intros Hopts Hcs Hcfg Htype. split.
  - intros c e w' Hrun.
    destruct (NewCore_returned _ _ _ _ _ _ _ Hrun) as (_ & c1' & Hopts' & Hcon).
    rewrite <- (options_applied_once _ _ _ _ Hopts Hopts') in Hcon. clear c1' Hopts'.
    destruct (construction_chain _ _ _ Hcon)
      as (c3 & c4 & c5 & c6 & c7 & (Hstage & _ & _ & Hdisc & _) & _ & _
          & (Hcs2 & Hsuite) & (Hcfg2 & Hcfg5 & Hcfg6) & _).
    cbv zeta in *.
    destruct Hstage as [[[s Hs] _]|(cfg0 & suite & _ & Hcfg0 & Hok & ->)]; [congruence|].
    assert (cfg0 = cfg) as -> by congruence.
    cbv zeta in Hok, Hsuite, Hcfg5. destruct (decide _) as [?|_]; [done|].
    cbn [cs config set_cs set_config] in Hsuite, Hcfg5.
    destruct (discovery_stage_crypto _ _ cfg Hdisc Hcfg5) as (cfg' & Hc6 & Hsame).
    exists suite, cfg'. by rewrite Hcfg6.
  - intros e He. unfold NewCore, before_discovery. cbv beta iota zeta delta [run bind].
    rewrite (apply_options_all _ _ _ _ Hopts). cbv beta iota.
    unfold init_cs. rewrite cs_defaults, Hcs, config_defaults, Hcfg.
    destruct (logger_defaults c1) as [lg Hlg]. rewrite Hlg.
    destruct (decide _) as [?|_]; [done|]. rewrite He. flow_simpl. by eexists.
Qed.

(** X23. With local discovery the provider is the one made from the
    discovery options and the TLS certificates of the configuration. When
    the options leave no provider but a configuration of the local kind, a
    Core that [NewCore] returns has the provider that
    [NewLocalConfigProvider] gives for those options and the mapper of
    those certificates. *)
Theorem NewCore_local_discovery (mspId : string) (raw : option Identity)
    (opts : list CoreOpt) (w w' : World) (c1 c : core) (e : option error)
    (cfg : Config) :
  options_applied_in_order opts (new_core mspId) c1 ->
  discoveryProvider c1 = None ->
  config c1 = Some cfg ->
  Discovery_Type (Config_Discovery cfg) = discovery_LocalConfigServiceDiscoveryType ->
  NewCore mspId raw opts w = Returned (Some c, e) w' ->
  exists dp : DiscoveryProvider,
    discovery_NewLocalConfigProvider
      (Discovery_Options (Config_Discovery cfg))
      (discovery_NewTLSCertsMapper (Config_TLSCertsMap cfg)) = Ok dp /\
    discoveryProvider c = Some dp.
Proof.
  intros Hopts Hnone Hcfg Hlocal Hrun.
  destruct (NewCore_returned _ _ _ _ _ _ _ Hrun) as (_ & c1' & Hopts' & Hcon).
  rewrite <- (options_applied_once _ _ _ _ Hopts Hopts') in Hcon. clear c1' Hopts'.
  destruct (construction_chain _ _ _ Hcon)
    as (c3 & c4 & c5 & c6 & c7 & (Hcs & _ & _ & Hdisc & _) & _ & _ & _
        & (Hcfg2 & Hcfg5 & _) & _ & _ & (Hd5 & Hdp) & _).
  cbv zeta in *.
  destruct (cs_stage_frame _ _ Hcs) as (_ & K3 & _).
  unfold config_kept in K3. rewrite Hcfg2, Hcfg, <- Hcfg5 in K3.
  destruct (config c5) as [cfg5|] eqn:Hc5; [|done].
  destruct K3 as (_ & _ & Hcerts & Htype & Hoptions).
  destruct Hdisc as [[[[d Hd]|Hno] _]|(_ & cfg0 & dp & Hcfg0 & Hcase)];
    [congruence | congruence |].
  assert (cfg0 = cfg5) as -> by congruence. cbv zeta in Hcase.
  destruct Hcase as [(_ & Hnew & ->)|(Hnot & _)]; [|congruence].
  exists dp. rewrite Hdp, <- Hcerts, <- Hoptions. by split.
Qed.

End FurtherProperties.

(** * The further properties on the stand-in network *)


(** a package and a channel on the fresh Core *)
Lemma Chaincode_Channel_commute_witness :
  exists (ch : api_Channel) (c1 : core) (w1 : World),
    Channel stub_core "mychannel" w0 = Returned (ch, c1) w1 /\
    chaincodes c1 = chaincodes stub_core /\
    (Chaincode c1 "mycc").1 = (Chaincode stub_core "mycc").1.
Proof.
  eexists _, _, _. split; [vm_compute; reflexivity|].
  eapply (proj2 (proj2 (Chaincode_Channel_commute (H := stub_handles) (E := stub)
                          (P := stub_packages) stub_core "mycc" "mychannel" w0))).
  vm_compute. reflexivity.
Defined.

(** a package after two channels have been resolved *)
Lemma Chaincode_default_orderer_witness :
  (Chaincode (calls ["mychannel"; "plain"] stub_core w0).1 "mycc").1
  = chaincode_NewCorePackage "mycc"
      (system_NewLSCC (peerPool stub_core) (identity stub_core))
      (fetcher stub_core) (orderer stub_core) (identity stub_core).
Proof.
  apply (Chaincode_default_orderer (H := stub_handles) (E := stub) (P := stub_packages)
           stub_core ["mychannel"; "plain"] w0 "mycc").
  reflexivity.
Defined.


Lemma Channel_frame_witness :
  exists (ch : api_Channel) (c' : core) (w' : World),
    Channel stub_core "mychannel" w0 = Returned (ch, c') w' /\
    (channels c' !! "mychannel" = Some ch /\
     (forall m : string, m <> "mychannel" -> channels c' !! m = channels stub_core !! m) /\
     c' = set_channels stub_core (channels c') /\
     trace w0 `prefix_of` trace w').
Proof.
  eexists _, _, _. split; [vm_compute; reflexivity|].
  eapply (Channel_frame (H := stub_handles) (E := stub) stub_core _ "mychannel" w0).
  vm_compute. reflexivity.
Defined.


(** the Core of the configuration with local discovery *)
Lemma NewCore_initialised_witness : (None : option error) = None /\ initialised stub_core.
Proof.
  eapply (NewCore_initialised (H := stub_handles) (E := stub) "Org1MSP" (Some admin)
            [WithConfig (stub_config "local")] w0 _ stub_core None).
  vm_compute. reflexivity.
Defined.

(** an orderer from an option, beside a configuration that lists another *)
Lemma NewCore_options_take_precedence_witness :
  exists (c : core) (w' : World),
    NewCore "Org1MSP" (Some admin)
      [WithConfig (stub_config "local"); WithOrderer ["orderer9:7050"]] w0
    = Returned (Some c, None) w' /\
    orderer c = Some ["orderer9:7050"].
Proof.
  assert (Hopts : options_applied_in_order
            [WithConfig (stub_config "local"); WithOrderer ["orderer9:7050"]]
            (new_core "Org1MSP")
            (set_orderer (set_config (new_core "Org1MSP") (Some (stub_config "local")))
                         (Some ["orderer9:7050"]))).
  { apply (applied_next [WithConfig (stub_config "local")]
             (WithOrderer ["orderer9:7050"]) (new_core "Org1MSP")
             (set_config (new_core "Org1MSP") (Some (stub_config "local"))));
      [|reflexivity].
    apply (applied_next [] (WithConfig (stub_config "local")) (new_core "Org1MSP")
             (new_core "Org1MSP")); [apply applied_none | reflexivity]. }
  assert (Hrun : exists (c : core) (w' : World),
            NewCore "Org1MSP" (Some admin)
              [WithConfig (stub_config "local"); WithOrderer ["orderer9:7050"]] w0
            = Returned (Some c, None) w').
  { eexists _, _. vm_compute. reflexivity. }
  destruct Hrun as (c & w' & Hrun). exists c, w'. split; [exact Hrun|].
  apply (NewCore_options_take_precedence (H := stub_handles) (E := stub)
           _ _ _ _ _ _ _ _ Hopts Hrun).
  reflexivity.
Defined.

Lemma NewCore_identity_of_suite_witness :
  exists id : Identity,
    Some admin = Some id /\
    core_CurrentIdentity stub_core
    = Some (Identity_GetSigningIdentity id (core_CryptoSuite stub_core)).
Proof.
  eapply (NewCore_identity_of_suite (H := stub_handles) (E := stub) "Org1MSP"
            (Some admin) [WithConfig (stub_config "local")] w0 _ stub_core None).
  vm_compute. reflexivity.
Defined.

(** the one ordering endpoint of the configuration *)
Lemma NewCore_default_orderer_witness :
  exists (conn : ClientConn) (o : Orderer),
    util_NewGRPCConnectionFromConfigs (ctx stub_core) (logger stub_core)
      (Config_Orderers (stub_config "local")) = Ok conn /\
    orderer_NewFromGRPC (ctx stub_core) (Some conn) = Ok o /\
    orderer stub_core = Some o.
Proof.
  assert (Hopts : options_applied_in_order [WithConfig (stub_config "local")]
            (new_core "Org1MSP")
            (set_config (new_core "Org1MSP") (Some (stub_config "local")))).
  { apply (applied_next [] (WithConfig (stub_config "local")) (new_core "Org1MSP")
             (new_core "Org1MSP")); [apply applied_none | reflexivity]. }
  assert (Hrun : exists w' : World,
            NewCore "Org1MSP" (Some admin) [WithConfig (stub_config "local")] w0
            = Returned (Some stub_core, None) w').
  { eexists. vm_compute. reflexivity. }
  destruct Hrun as (w' & Hrun).
  apply (proj2 (NewCore_default_orderer (H := stub_handles) (E := stub) _ _ _ _ _ _ _ _
                  (stub_config "local") Hopts eq_refl eq_refl Hrun)).
  discriminate.
Defined.


(** no option at all *)
Lemma NewCore_empty_config_witness :
  exists w' : World,
    NewCore "Org1MSP" None [] w0 = Returned (None, Some api_ErrEmptyConfig) w'.
Proof.
  apply (proj1 (NewCore_empty_config (H := stub_handles) (E := stub) "Org1MSP" None []
                  w0 (new_core "Org1MSP") (applied_none _) eq_refl)).
  reflexivity.
Defined.


(** a discovery type that does not exist *)
Lemma NewCore_unknown_discovery_type_witness :
  (exists w' : World,
     NewCore "Org1MSP" (Some admin) [WithConfig (stub_config "kafka")] w0
     = Returned (None, Some (unknown_discovery_type "kafka")) w') /\
  Error (unknown_discovery_type "kafka")
  = "unknown discovery type=kafka. available: local, gossip".
Proof.
  eapply (NewCore_unknown_discovery_type (H := stub_handles) (E := stub) "Org1MSP"
            (Some admin) [WithConfig (stub_config "kafka")] w0 _ _ _
            (set_Crypto (stub_config "kafka") ecdsa_DefaultConfig)).
  - vm_compute. reflexivity.
  - reflexivity.
  - reflexivity.
  - discriminate.
  - discriminate.
Defined.



(** gossip discovery asked for, bootstrap connection left out *)
Lemma NewCore_nil_nil_only_gossip_witness :
  exists w' : World,
    NewCore "Org1MSP" (Some admin) [WithConfig (stub_config "gossip")] w0
    = Returned (None, None) w'.
Proof.
  apply (proj2 (NewCore_nil_nil_only_gossip (H := stub_handles) (E := stub) "Org1MSP"
                  (Some admin) [WithConfig (stub_config "gossip")] w0
                  ltac:(discriminate))).
  eexists _, _, _, (set_Crypto (stub_config "gossip") ecdsa_DefaultConfig).
  split; [vm_compute; reflexivity|]. by repeat split.
Defined.

(** the Core as it reaches lines 186-205 for the configuration of two
    organisations with one endorser each *)
Lemma init_peerPool_registers_witness :
  init_peerPool
    (WithConfig (stub_config "local")
       (set_logger (new_core "Org1MSP") (Some logger_DefaultLogger))).1 w0
  = Continue
      (set_peerPool
         (WithConfig (stub_config "local")
            (set_logger (new_core "Org1MSP") (Some logger_DefaultLogger))).1
         (Some tt))
      {| trace := [EvLog (entry InfoLevel logger_DefaultLogger "initializing peer pool" []);
                   EvPoolAdd "Org1MSP" "peer0.org1:7051";
                   EvPoolAdd "Org2MSP" "peer0.org2:7051"];
         next_ref := 0 |}.
Proof.
  apply (init_peerPool_registers (H := stub_handles) (E := stub) _ w0
           logger_DefaultLogger (stub_config "local")
           ["peer0.org1:7051"; "peer0.org2:7051"]).
  - reflexivity.
  - reflexivity.
  - reflexivity.
  - repeat constructor.
Defined.


(** two addresses of one local peer, into the pool of an option *)
Lemma init_gossip_registers_local_peers_witness :
  init_gossip (E := strict_stub)
    (set_identity (WithPeerPool tt (new_core "Org1MSP")).1 (Some admin))
    None gossip_config tt w0
  = Continue
      (set_discoveryProvider
         (set_config
            (set_identity (WithPeerPool tt (new_core "Org1MSP")).1 (Some admin))
            (Some (set_Discovery_Connection_Tls gossip_config bootstrap no_tls)))
         (Some StubGossip), None)
      {| trace := [EvPoolAdd "Org1MSP" "peer0.org1:7051";
                   EvPoolAdd "Org1MSP" "peer1.org1:7051"];
         next_ref := 0 |}.
Proof.
  apply (init_gossip_registers_local_peers (H := stub_handles) (E := strict_stub)
           _ None gossip_config tt w0
           bootstrap admin [] no_tls StubGossip
           {| Peers := [ {| MspID := "Org1MSP";
                            HostAddresses := [stub_address "peer0.org1:7051";
                                              stub_address "peer1.org1:7051"] |} ] |}
           tt ["peer0.org1:7051"; "peer1.org1:7051"]).
  - reflexivity.
  - reflexivity.
  - reflexivity.
  - reflexivity.
  - reflexivity.
  - reflexivity.
  - reflexivity.
  - repeat constructor.
Defined.


(** a crypto type named in the configuration *)
Lemma NewCore_configured_crypto_witness :
  exists w' : World,
    NewCore "Org1MSP" (Some admin) [WithConfig rsa_config] w0
    = Returned (None,
                Some (withMessage (fundamental "unsupported crypto suite: rsa")
                                  "failed to initialize crypto suite")) w'.
Proof.
  assert (Hopts : options_applied_in_order [WithConfig rsa_config] (new_core "Org1MSP")
            (WithConfig rsa_config (new_core "Org1MSP")).1).
  { apply (applied_next [] (WithConfig rsa_config) (new_core "Org1MSP")
             (new_core "Org1MSP")); [apply applied_none | reflexivity]. }
  apply (proj2 (NewCore_configured_crypto (H := stub_handles) (E := stub) _ _ _ _
                  rsa_config w0 Hopts eq_refl eq_refl ltac:(discriminate))).
  reflexivity.
Defined.

(** the configuration with local discovery *)
Lemma NewCore_local_discovery_witness :
  exists dp : DiscoveryProvider,
    discovery_NewLocalConfigProvider
      (Discovery_Options (Config_Discovery (stub_config "local")))
      (discovery_NewTLSCertsMapper (Config_TLSCertsMap (stub_config "local"))) = Ok dp /\
    discoveryProvider stub_core = Some dp.
Proof.
  assert (Hopts : options_applied_in_order [WithConfig (stub_config "local")]
            (new_core "Org1MSP")
            (WithConfig (stub_config "local") (new_core "Org1MSP")).1).
  { apply (applied_next [] (WithConfig (stub_config "local")) (new_core "Org1MSP")
             (new_core "Org1MSP")); [apply applied_none | reflexivity]. }
  assert (Hrun : exists w' : World,
            NewCore "Org1MSP" (Some admin) [WithConfig (stub_config "local")] w0
            = Returned (Some stub_core, None) w').
  { eexists. vm_compute. reflexivity. }
  destruct Hrun as (w' & Hrun).
  apply (NewCore_local_discovery (H := stub_handles) (E := stub) _ _ _ _ _ _ _ _
           (stub_config "local") Hopts eq_refl eq_refl eq_refl Hrun).
Defined.
